(** * The two-pane preview of pkg/tui/preview.go

    A shallow embedding of the preview layout: a sidebar table whose
    selection drives a contents table, filled by goroutines that call the
    entry's [Contents] function.

    The widgets of tview are modelled by their cell matrices, the
    goroutines and the queue of [QueueUpdateDraw] by explicit lists in the
    state, and every call on a widget, on the screen and on a [Contents]
    function is recorded in a trace together with the thread that made
    it. *)

From Stdlib Require Import Arith Lia Ascii String.
From stdpp Require Import base list strings.

(** ** tcell and tview, as far as preview.go uses them *)

Module Tview.

(** tcell.Style: only the bold attribute is ever set. *)
Record Style := { bold : bool }.

Definition StyleDefault : Style := {| bold := false |}.
Definition Bold (on : bool) (s : Style) : Style := {| bold := on |}.

(** tview.TableCell. [MaxWidth = 0] means no limit, as in tview. *)
Record TableCell := {
  Text : string;
  CellStyle : Style;
  NotSelectable : bool;
  MaxWidth : nat
}.

Definition NewTableCell (text : string) : TableCell :=
  {| Text := text; CellStyle := StyleDefault;
     NotSelectable := false; MaxWidth := 0 |}.

Definition SetMaxWidth (n : nat) (c : TableCell) : TableCell :=
  {| Text := Text c; CellStyle := CellStyle c;
     NotSelectable := NotSelectable c; MaxWidth := n |}.

Definition SetStyle (s : Style) (c : TableCell) : TableCell :=
  {| Text := Text c; CellStyle := s;
     NotSelectable := NotSelectable c; MaxWidth := MaxWidth c |}.

Definition SetSelectable (on : bool) (c : TableCell) : TableCell :=
  {| Text := Text c; CellStyle := CellStyle c;
     NotSelectable := negb on; MaxWidth := MaxWidth c |}.

(** The zero cell tview pads a row with. *)
Definition zeroCell : TableCell := NewTableCell "".

(** tview.Table: the rows of cells. A row may be shorter than another. *)
Abbreviation Table := (list (list TableCell)).

Definition NewTable : Table := [].

(** Table.SetCell grows the matrix: missing rows are added empty, a
    short row is padded with zero cells up to the column. *)
Definition SetCell (row col : nat) (cell : TableCell) (t : Table) : Table :=
  let t1 := t ++ replicate (S row - length t) [] in
  let r0 := default [] (t1 !! row) in
  let r1 := r0 ++ replicate (S col - length r0) zeroCell in
  <[row := <[col := cell]> r1]> t1.

Definition Clear (t : Table) : Table := [].

Definition GetRowCount (t : Table) : nat := length t.

(** The cells of a row; a row that does not exist has none. *)
Definition rowCells (t : Table) (row : nat) : list TableCell :=
  default [] (t !! row).

End Tview.

Import Tview.

(** ** Data of preview.go *)

Definition sidebarMaxWidth : nat := 60.

(** TableData is [[][]string]; it is declared next to the grid renderer. *)
Abbreviation TableData := (list (list string)).

(** What a [Contents] function returns: an [interface{}]. The type switch
    of renderContents tells a string, a TableData and anything else (the
    nil interface included) apart. *)
Inductive Value :=
| VString (s : string)
| VTableData (data : TableData)
| VOther.

(** PreviewData; a nil [Contents] is [None]. *)
Record PreviewData := {
  Key : string;
  Menu : string;
  Contents : option (string -> Value)
}.

(** The two tables NewPreview creates and hands to initLayout. *)
Inductive Pane := Sidebar | ContentsPane.

#[global] Instance Pane_eq_dec : EqDecision Pane.
Proof. solve_decision. Defined.

(** The table that is not [p]: the nextView of [p] in initLayout. *)
Definition otherPane (p : Pane) : Pane :=
  match p with
  | Sidebar => ContentsPane
  | ContentsPane => Sidebar
  end.

(** The configuration part of Preview, set by the options. *)
Record Preview := {
  initialText : string;
  footerText : string
}.

Definition PreviewOption : Type := Preview -> Preview.

Definition WithInitialText (text : string) : PreviewOption :=
  fun p => {| initialText := text; footerText := footerText p |}.

Definition WithPreviewFooterText (text : string) : PreviewOption :=
  fun p => {| initialText := initialText p; footerText := text |}.

(** Errors Render can return. errNoData is declared outside preview.go;
    a failure of the terminal comes out of Screen.Paint. *)
Inductive Error := errNoData | errTerminal.

(** ** Threads, events and the state *)

Inductive Thread :=
| LoopThread                (* the thread of Render and of the event loop *)
| FetchTask (id : nat)      (* the goroutine started by the id-th [go] *)
| QueuedUpdate (id : nat).  (* the loop thread again, while it runs the
                               update that goroutine [id] queued *)

#[global] Instance Thread_eq_dec : EqDecision Thread.
Proof. solve_decision. Defined.

Inductive Event :=
| SidebarSetCell (row col : nat) (cell : TableCell)
| ContentsClear
| ContentsSetCell (row col : nat) (cell : TableCell)
| QueueUpdateDraw
| Go (id : nat)
| Produce (key : string)
| ScreenSetFocus (p : Pane)
| ScreenStop.

(** The closure renderContents hands to QueueUpdateDraw captures [pd]. *)
Inductive Closure := TableUpdate (pd : PreviewData).

Record World := {
  sidebar : Table;                              (* pv.sidebar *)
  contents : Table;                             (* pv.contents.view *)
  selectionChangedFunc : option (list PreviewData);
                                                (* the sidebar's handler, with the pd it captures *)
  focus : Pane;
  stopped : bool;
  updates : list (nat * Closure);               (* queued by QueueUpdateDraw, oldest first,
                                                   each with the goroutine that queued it *)
  goroutines : list (nat * PreviewData);        (* started by go, not yet run *)
  nextId : nat;
  trace : list (Thread * Event)                 (* oldest first *)
}.

Definition withSidebar (f : Table -> Table) (w : World) : World :=
  {| sidebar := f (sidebar w); contents := contents w;
     selectionChangedFunc := selectionChangedFunc w; focus := focus w;
     stopped := stopped w; updates := updates w; goroutines := goroutines w;
     nextId := nextId w; trace := trace w |}.

Definition withContents (f : Table -> Table) (w : World) : World :=
  {| sidebar := sidebar w; contents := f (contents w);
     selectionChangedFunc := selectionChangedFunc w; focus := focus w;
     stopped := stopped w; updates := updates w; goroutines := goroutines w;
     nextId := nextId w; trace := trace w |}.

Definition withHandler (h : option (list PreviewData)) (w : World) : World :=
  {| sidebar := sidebar w; contents := contents w;
     selectionChangedFunc := h; focus := focus w;
     stopped := stopped w; updates := updates w; goroutines := goroutines w;
     nextId := nextId w; trace := trace w |}.

Definition withFocus (p : Pane) (w : World) : World :=
  {| sidebar := sidebar w; contents := contents w;
     selectionChangedFunc := selectionChangedFunc w; focus := p;
     stopped := stopped w; updates := updates w; goroutines := goroutines w;
     nextId := nextId w; trace := trace w |}.

Definition withStopped (b : bool) (w : World) : World :=
  {| sidebar := sidebar w; contents := contents w;
     selectionChangedFunc := selectionChangedFunc w; focus := focus w;
     stopped := b; updates := updates w; goroutines := goroutines w;
     nextId := nextId w; trace := trace w |}.

Definition withUpdates (f : list (nat * Closure) -> list (nat * Closure))
    (w : World) : World :=
  {| sidebar := sidebar w; contents := contents w;
     selectionChangedFunc := selectionChangedFunc w; focus := focus w;
     stopped := stopped w; updates := f (updates w); goroutines := goroutines w;
     nextId := nextId w; trace := trace w |}.

Definition withGoroutines (f : list (nat * PreviewData) -> list (nat * PreviewData))
    (n : nat) (w : World) : World :=
  {| sidebar := sidebar w; contents := contents w;
     selectionChangedFunc := selectionChangedFunc w; focus := focus w;
     stopped := stopped w; updates := updates w; goroutines := f (goroutines w);
     nextId := n; trace := trace w |}.

Definition record (th : Thread) (e : Event) (w : World) : World :=
  {| sidebar := sidebar w; contents := contents w;
     selectionChangedFunc := selectionChangedFunc w; focus := focus w;
     stopped := stopped w; updates := updates w; goroutines := goroutines w;
     nextId := nextId w; trace := trace w ++ [(th, e)] |}.

(** ** The monad of the embedding: state, and Go's run-time panics *)

Inductive Panic :=
| IndexOutOfRange
| TypeAssertionFailed
| NilDereference.

Inductive Res (A : Type) :=
| Done (a : A) (w : World)
| Panicked (p : Panic) (w : World).

Arguments Done {A} a w.
Arguments Panicked {A} p w.

(** The state a run ends in, panic or not. *)
Definition worldOf {A : Type} (r : Res A) : World :=
  match r with
  | Done _ w => w
  | Panicked _ w => w
  end.

Definition M (A : Type) : Type := World -> Res A.

#[global] Instance M_ret : MRet M := fun A a w => Done a w.

#[global] Instance M_bind : MBind M := fun A B k m w =>
  match m w with
  | Done a w' => k a w'
  | Panicked p w' => Panicked p w'
  end.

Definition panic {A : Type} (p : Panic) : M A := fun w => Panicked p w.

Definition modify (f : World -> World) : M unit := fun w => Done tt (f w).

Definition get {A : Type} (f : World -> A) : M A := fun w => Done (f w) w.

(** ** Calls on the widgets, the screen and the Go run time

    Each one changes the state and records itself, with the calling
    thread, at the end of the trace. *)

Definition sidebarSetCell (th : Thread) (row col : nat) (cell : TableCell) : M unit :=
  modify (fun w => record th (SidebarSetCell row col cell)
                     (withSidebar (SetCell row col cell) w)).

Definition contentsClear (th : Thread) : M unit :=
  modify (fun w => record th ContentsClear (withContents Clear w)).

Definition contentsSetCell (th : Thread) (row col : nat) (cell : TableCell) : M unit :=
  modify (fun w => record th (ContentsSetCell row col cell)
                     (withContents (SetCell row col cell) w)).

Definition setSelectionChangedFunc (pd : list PreviewData) : M unit :=
  modify (withHandler (Some pd)).

(** Screen.QueueUpdateDraw, called by goroutine [id]: the closure joins
    the queue of the loop. *)
Definition queueUpdateDraw (id : nat) (f : Closure) : M unit :=
  modify (fun w => record (FetchTask id) QueueUpdateDraw
                     (withUpdates (fun q => q ++ [(id, f)]) w)).

Definition screenSetFocus (th : Thread) (p : Pane) : M unit :=
  modify (fun w => record th (ScreenSetFocus p) (withFocus p w)).

Definition screenStop (th : Thread) : M unit :=
  modify (fun w => record th ScreenStop (withStopped true w)).

(** The statement [go pv.renderContents(d)]: the argument is already
    evaluated; the new goroutine waits to be scheduled. *)
Definition go (th : Thread) (d : PreviewData) : M unit :=
  fun w =>
    let id := nextId w in
    Done tt (record th (Go id)
               (withGoroutines (fun gs => gs ++ [(id, d)]) (S id) w)).

(** A call [pd.Contents(pd.Key)]. *)
Definition invoke (th : Thread) (f : string -> Value) (key : string) : M Value :=
  modify (record th (Produce key));; mret (f key).

(** ** preview.go *)

Section PreviewLayout.

(** splitText and pad are helpers of package tui declared outside
    preview.go; the layout is modelled for any such pair. *)
Variable splitText : string -> list string.
Variable pad : string -> nat -> string.

(** The cell printText builds for a line. *)
Definition textCell (line : string) : TableCell :=
  SetSelectable false (SetStyle StyleDefault (NewTableCell (pad line 1))).

(** The loop of printText, from row [i] on. *)
Fixpoint printLines (th : Thread) (i : nat) (lines : list string) : M unit :=
  match lines with
  | [] => mret tt
  | line :: rest =>
      contentsSetCell th i 0 (textCell line);;
      printLines th (S i) rest
  end.

Definition printText (th : Thread) (s : string) : M unit :=
  printLines th 0 (splitText s).

(** Modelled from the spec: the cell renderTableHeader, declared outside
    preview.go, builds for a string of the header row. The spec has every
    cell of the grid padded by one character and the header row
    distinguished: the text is the padded string, in bold. *)
Definition headerCell (s : string) : TableCell :=
  SetStyle (Bold true StyleDefault) (NewTableCell (pad s 1)).

(** Modelled from the spec: the cell renderTableCell, declared outside
    preview.go, builds for a string of a body row: the text is the string
    padded by one character, in the default style. *)
Definition bodyCell (s : string) : TableCell :=
  NewTableCell (pad s 1).

Fixpoint setRow (th : Thread) (mk : string -> TableCell) (row col : nat)
    (cells : list string) : M unit :=
  match cells with
  | [] => mret tt
  | s :: rest =>
      contentsSetCell th row col (mk s);;
      setRow th mk row (S col) rest
  end.

Fixpoint setRows (th : Thread) (row : nat) (rows : list (list string)) : M unit :=
  match rows with
  | [] => mret tt
  | r :: rest =>
      setRow th bodyCell row 0 r;;
      setRows th (S row) rest
  end.

(** Modelled from the spec: renderTableHeader, of the grid renderer, is
    declared outside preview.go. The row it is given becomes the header
    of the grid, its row 0. *)
Definition renderTableHeader (th : Thread) (row : list string) : M unit :=
  setRow th headerCell 0 0 row.

(** Modelled from the spec: renderTableCell, of the grid renderer, is
    declared outside preview.go. It is given the whole table; its rows
    after the first become the body of the grid, the rows below the
    header, in order. *)
Definition renderTableCell (th : Thread) (data : TableData) : M unit :=
  setRows th 1 (tail data).

(** The body of the closure that renderContents queues (lines 160-173);
    [th] is the thread that runs it. *)
Definition tableUpdate (th : Thread) (pd : PreviewData) : M unit :=
  contentsClear th;;
  match Contents pd with
  | None => panic NilDereference
  | Some f =>
      v ← invoke th f (Key pd);
      match v with
      | VTableData data =>
          if decide (length data = 1) then
            printText th "No results to show."
          else
            match data with
            | [] => panic IndexOutOfRange
            | header :: _ =>
                renderTableHeader th header;;
                renderTableCell th data
            end
      | _ => panic TypeAssertionFailed
      end
  end.

Definition runClosure (th : Thread) (c : Closure) : M unit :=
  match c with
  | TableUpdate pd => tableUpdate th pd
  end.

(** renderContents, whose only call is the go statement of the
    selection-changed function; [id] is the goroutine that runs it. *)
Definition renderContents (id : nat) (pd : PreviewData) : M unit :=
  match Contents pd with
  | None => printText (FetchTask id) "No contents defined."
  | Some f =>
      v ← invoke (FetchTask id) f (Key pd);
      match v with
      | VString s => printText (FetchTask id) s
      | VTableData _ => queueUpdateDraw id (TableUpdate pd)
      | VOther => mret tt
      end
  end.

(** The function Render gives to SetSelectionChangedFunc. It runs on the
    loop thread; [pd[r]] is evaluated there, by the go statement. *)
Definition selectionChanged (pd : list PreviewData) (r c : nat) : M unit :=
  contentsClear LoopThread;;
  printText LoopThread "Loading...";;
  match pd !! r with
  | Some d => go LoopThread d
  | None => panic IndexOutOfRange
  end.

(** The sidebar cell of entry [d] at row [i]. *)
Definition menuCell (i : nat) (d : PreviewData) : TableCell :=
  let style := if decide (i = 0) then Bold true StyleDefault else StyleDefault in
  SetStyle style (SetMaxWidth sidebarMaxWidth (NewTableCell (pad (Menu d) 1))).

(** The loop of Render over [rest], the entries from index [i] on. *)
Fixpoint renderLoop (pd : list PreviewData) (i : nat) (rest : list PreviewData)
    : M unit :=
  match rest with
  | [] => mret tt
  | d :: rest' =>
      sidebarSetCell LoopThread i 0 (menuCell i d);;
      setSelectionChangedFunc pd;;
      renderLoop pd (S i) rest'
  end.

(** Render. Screen.Paint is declared outside preview.go: [paint] stands
    for the blocking call [pv.screen.Paint(pv.painter)]. *)
Definition Render (pv : Preview) (paint : M (option Error))
    (pd : list PreviewData) : M (option Error) :=
  if decide (length pd = 0) then mret (Some errNoData)
  else
    renderLoop pd 0 pd;;
    printText LoopThread (initialText pv);;
    paint.

(** NewPreview: the options are applied in order to an empty Preview;
    both tables are new. The grid adds the sidebar with its focus flag
    set, so the sidebar has the focus when painting starts. *)
Definition NewPreview (opts : list PreviewOption) : Preview * World :=
  (foldl (fun pv opt => opt pv) {| initialText := ""; footerText := "" |} opts,
   {| sidebar := NewTable; contents := NewTable;
      selectionChangedFunc := None; focus := Sidebar; stopped := false;
      updates := []; goroutines := []; nextId := 0; trace := [] |}).

(** *** initLayout *)

Inductive KeyEvent :=
| KeyRune (r : ascii)
| KeyEsc
| KeyOther.

Definition HasFocus (view : Pane) : M bool :=
  get (fun w => bool_decide (focus w = view)).

(** The function initLayout gives to SetInputCapture of [view]. *)
Definition inputCapture (view nextView : Pane) (event : KeyEvent) : M KeyEvent :=
  match event with
  | KeyRune r =>
      (if decide (r = "q"%char) then screenStop LoopThread
       else if decide (r = "w"%char) then
         has ← HasFocus view;
         if (has : bool) then screenSetFocus LoopThread nextView
         else screenSetFocus LoopThread view
       else mret tt);;
      mret event
  | _ => mret event
  end.

(** The function initLayout gives to SetDoneFunc. *)
Definition doneFunc (key : KeyEvent) : M unit :=
  match key with
  | KeyEsc => screenStop LoopThread
  | _ => mret tt
  end.

(** NewPreview calls initLayout(sidebar, contents) and
    initLayout(contents, sidebar): the capture installed on each pane. *)
Definition paneInputCapture (p : Pane) : KeyEvent -> M KeyEvent :=
  match p with
  | Sidebar => inputCapture Sidebar ContentsPane
  | ContentsPane => inputCapture ContentsPane Sidebar
  end.

(** *** The event loop behind Screen.Paint

    tview gives a key to the input capture of the pane that has the
    focus and then to the table, which calls the done function on
    Escape; it calls the selection-changed function of the sidebar with
    a row of the sidebar. A key press stands for the capture and the done
    function only: when the table moves the selection of the sidebar on
    a navigation key, the change of selection is the next event of the
    schedule, the selection of that row. The Go scheduler runs a waiting
    goroutine at any time, here in one piece; the loop runs the queued
    updates in order. A schedule lists what happens, in the order it
    happens; what cannot happen in the state reached (a row the sidebar
    does not have, a goroutine that is not waiting, an update when none
    is queued) is skipped. *)

Inductive LoopEvent :=
| SelectRow (r : nat)
| KeyPress (k : KeyEvent)
| RunGoroutine (id : nat)
| DrawUpdate
| TerminalFailure.

Fixpoint takeGoroutine (id : nat) (gs : list (nat * PreviewData))
    : option (PreviewData * list (nat * PreviewData)) :=
  match gs with
  | [] => None
  | (i, d) :: rest =>
      if decide (i = id) then Some (d, rest)
      else
        match takeGoroutine id rest with
        | Some (d', rest') => Some (d', (i, d) :: rest')
        | None => None
        end
  end.

Definition dispatch (e : LoopEvent) : M unit :=
  match e with
  | SelectRow r =>
      h ← get selectionChangedFunc;
      rows ← get (fun w => GetRowCount (sidebar w));
      match h with
      | Some pd => if decide (r < rows) then selectionChanged pd r 0 else mret tt
      | None => mret tt
      end
  | KeyPress k =>
      p ← get focus;
      k' ← paneInputCapture p k;
      doneFunc k'
  | RunGoroutine id =>
      gs ← get goroutines;
      match takeGoroutine id gs with
      | Some (d, rest) =>
          modify (fun w => withGoroutines (fun _ => rest) (nextId w) w);;
          renderContents id d
      | None => mret tt
      end
  | DrawUpdate =>
      q ← get updates;
      match q with
      | (id, c) :: rest =>
          modify (withUpdates (fun _ => rest));;
          runClosure (QueuedUpdate id) c
      | [] => mret tt
      end
  | TerminalFailure => mret tt
  end.

(** The loop ends when the screen is stopped or the terminal fails; a
    schedule that ends before that leaves the loop where it is. *)
Fixpoint eventLoop (schedule : list LoopEvent) : M (option Error) :=
  match schedule with
  | [] => mret None
  | TerminalFailure :: _ => mret (Some errTerminal)
  | e :: rest =>
      dispatch e;;
      halt ← get stopped;
      if (halt : bool) then mret None else eventLoop rest
  end.

(** The events of a list handled one after the other, whether or not
    the screen was stopped on the way. *)
Fixpoint dispatchAll (events : list LoopEvent) : M unit :=
  match events with
  | [] => mret tt
  | e :: rest => dispatch e;; dispatchAll rest
  end.

(** *** What a run of cell writes leaves behind

    The tables and the records of the loops above, as functions. *)

Fixpoint paintLines (i : nat) (lines : list string) (t : Table) : Table :=
  match lines with
  | [] => t
  | line :: rest => paintLines (S i) rest (SetCell i 0 (textCell line) t)
  end.

Fixpoint printEvents (th : Thread) (i : nat) (lines : list string)
    : list (Thread * Event) :=
  match lines with
  | [] => []
  | line :: rest =>
      (th, ContentsSetCell i 0 (textCell line)) :: printEvents th (S i) rest
  end.

Fixpoint paintRow (mk : string -> TableCell) (row col : nat) (cells : list string)
    (t : Table) : Table :=
  match cells with
  | [] => t
  | s :: rest => paintRow mk row (S col) rest (SetCell row col (mk s) t)
  end.

Fixpoint rowEvents (th : Thread) (mk : string -> TableCell) (row col : nat)
    (cells : list string) : list (Thread * Event) :=
  match cells with
  | [] => []
  | s :: rest => (th, ContentsSetCell row col (mk s)) :: rowEvents th mk row (S col) rest
  end.

Fixpoint paintRows (row : nat) (rows : list (list string)) (t : Table) : Table :=
  match rows with
  | [] => t
  | r :: rest => paintRows (S row) rest (paintRow bodyCell row 0 r t)
  end.

Fixpoint rowsEvents (th : Thread) (row : nat) (rows : list (list string))
    : list (Thread * Event) :=
  match rows with
  | [] => []
  | r :: rest => rowEvents th bodyCell row 0 r ++ rowsEvents th (S row) rest
  end.

Fixpoint paintMenu (i : nat) (rest : list PreviewData) (t : Table) : Table :=
  match rest with
  | [] => t
  | d :: rest' => paintMenu (S i) rest' (SetCell i 0 (menuCell i d) t)
  end.

Fixpoint menuEvents (i : nat) (rest : list PreviewData) : list (Thread * Event) :=
  match rest with
  | [] => []
  | d :: rest' =>
      (LoopThread, SidebarSetCell i 0 (menuCell i d)) :: menuEvents (S i) rest'
  end.

(** *** The order of the calls in a trace *)

(** The calls of a selection that starts goroutine [id]: the clear, the
    cell writes of "Loading..." and, last, the go statement. *)
Definition selectionEvents (id : nat) : list (Thread * Event) :=
  (LoopThread, ContentsClear)
  :: printEvents LoopThread 0 (splitText "Loading...")
  ++ [(LoopThread, Go id)].

(** The thread makes its calls for the selection that started goroutine
    [id]: it is that goroutine, or the loop running the update the
    goroutine queued. *)
Definition madeFor (id : nat) (th : Thread) : Prop :=
  th = FetchTask id \/ th = QueuedUpdate id.

(** The calls of the selection that starts goroutine [id] are in [tr],
    one after the other. *)
Definition started (id : nat) (tr : list (Thread * Event)) : Prop :=
  exists pre mid, tr = pre ++ selectionEvents id ++ mid.

(** Whatever is called for a selection is called after the calls of the
    selection itself. *)
Definition loadingPrecedes (tr : list (Thread * Event)) : Prop :=
  forall tr1 th e tr2 id,
    tr = tr1 ++ (th, e) :: tr2 -> madeFor id th -> started id tr1.

(** The invariant of the loop: the trace is in order, and every waiting
    goroutine and every queued update comes from a selection on record. *)
Definition coherent (w : World) : Prop :=
  loadingPrecedes (trace w)
  /\ (forall id d, (id, d) ∈ goroutines w -> started id (trace w))
  /\ (forall id c, (id, c) ∈ updates w -> started id (trace w)).

End PreviewLayout.

(** The state after the contents table became [t] and the calls [es] were
    recorded. *)
Definition drawn (t : Table) (es : list (Thread * Event)) (w : World) : World :=
  {| sidebar := sidebar w; contents := t;
     selectionChangedFunc := selectionChangedFunc w; focus := focus w;
     stopped := stopped w; updates := updates w; goroutines := goroutines w;
     nextId := nextId w; trace := trace w ++ es |}.

(** A table of one column. *)
Definition column (cells : list TableCell) : Table := map (fun c => [c]) cells.


(** [w'] comes from [w] by calls of thread [th] that start no goroutine
    and queue no update. *)
Definition quiet (th : Thread) (w w' : World) : Prop :=
  (exists es, trace w' = trace w ++ es /\ Forall (fun x => x.1 = th) es)
  /\ goroutines w' = goroutines w
  /\ updates w' = updates w.

(** ** Reading a trace *)

Fixpoint countEvents (p : Thread * Event -> bool) (tr : list (Thread * Event)) : nat :=
  match tr with
  | [] => 0
  | x :: rest => (if p x then 1 else 0) + countEvents p rest
  end.

Fixpoint selectEvents (p : Thread * Event -> bool) (tr : list (Thread * Event))
    : list (Thread * Event) :=
  match tr with
  | [] => []
  | x :: rest => if p x then x :: selectEvents p rest else selectEvents p rest
  end.

(** A call of a [Contents] function. *)
Definition isProduce (x : Thread * Event) : bool :=
  match x.2 with Produce _ => true | _ => false end.

(** A call of QueueUpdateDraw. *)
Definition isQueueUpdateDraw (x : Thread * Event) : bool :=
  match x.2 with QueueUpdateDraw => true | _ => false end.

(** Any call a goroutine made. *)
Definition isOffLoop (x : Thread * Event) : bool :=
  match x.1 with FetchTask _ => true | _ => false end.

(** ** An instance of the helpers, to run the layout on given entries *)

Module Sample.

(** Modelled from the spec: splitText is declared outside preview.go.
    The spec says that a text is painted as lines; this instance cuts
    the text at line feeds and wraps nothing. *)
Fixpoint splitText (s : string) : list string :=
  match s with
  | EmptyString => [EmptyString]
  | String c rest =>
      if Ascii.eqb c "010"%char then EmptyString :: splitText rest
      else
        match splitText rest with
        | line :: lines => String c line :: lines
        | [] => [String c EmptyString]
        end
  end.

Fixpoint spaces (n : nat) : string :=
  match n with
  | 0 => EmptyString
  | S n' => String " "%char (spaces n')
  end.

(** Modelled from the spec: pad is declared outside preview.go. The
    spec says that every cell is left-padded by one character; this
    instance puts [n] spaces in front. *)
Definition pad (s : string) (n : nat) : string := String.append (spaces n) s.

(** A screen whose loop handles [schedule]. *)
Definition Paint (schedule : list LoopEvent) : M (option Error) :=
  eventLoop splitText pad schedule.

Definition bugList : PreviewData :=
  {| Key := "K1"; Menu := "Bug list";
     Contents := Some (fun _ => VTableData [["ID"; "Summary"]; ["1"; "Fix X"]]) |}.

Definition emptyList : PreviewData :=
  {| Key := "K2"; Menu := "Empty";
     Contents := Some (fun _ => VTableData [["ID"; "Summary"]]) |}.

Definition about : PreviewData :=
  {| Key := "K3"; Menu := "About";
     Contents := Some (fun key => VString (String.append "About " key)) |}.

Definition undefinedEntry : PreviewData :=
  {| Key := "K4"; Menu := "Undefined"; Contents := None |}.

Definition oddEntry : PreviewData :=
  {| Key := "K5"; Menu := "Odd"; Contents := Some (fun _ => VOther) |}.

Definition entries : list PreviewData :=
  [bugList; emptyList; about; undefinedEntry; oddEntry].

(** A second entry with a text. *)
Definition help : PreviewData :=
  {| Key := "K7"; Menu := "Help";
     Contents := Some (fun _ => VString "Press q to quit") |}.

(** An entry whose table has not even a header. *)
Definition noRows : PreviewData :=
  {| Key := "K6"; Menu := "No rows"; Contents := Some (fun _ => VTableData []) |}.

(** The state NewPreview returns. *)
Definition fresh : World := (NewPreview []).2.

(** Render of [pd] on a new preview, the loop handling [schedule]. *)
Definition run (pd : list PreviewData) (schedule : list LoopEvent)
    : Res (option Error) :=
  Render splitText pad (NewPreview []).1 (Paint schedule) pd fresh.

End Sample.

(** ** A session: what holds while the loop runs *)

(** A go statement. *)
Definition isGo (x : Thread * Event) : bool :=
  match x.2 with Go _ => true | _ => false end.

(** A cell write on the contents table. *)
Definition isCellWrite (x : Thread * Event) : Prop :=
  match x.2 with ContentsSetCell _ _ _ => True | _ => False end.

(** When [x] is a call of a [Contents] function, its argument is the Key
    of an entry of [pd] that has a function. *)
Definition callsEntryOf (pd : list PreviewData) (x : Thread * Event) : Prop :=
  match x.2 with
  | Produce key => exists d, d ∈ pd /\ Key d = key /\ Contents d <> None
  | _ => True
  end.


(** The state of a loop that Render started on the entries [pd] with the
    sidebar [side]. *)
Record session (pd : list PreviewData) (side : Table) (w : World) : Prop := {
  session_sidebar : sidebar w = side;
  session_handler : selectionChangedFunc w = Some pd;
  session_goroutines : forall id d, (id, d) ∈ goroutines w -> d ∈ pd;
  session_updates :
    forall id c, (id, c) ∈ updates w ->
      exists d f data,
        c = TableUpdate d /\ d ∈ pd
        /\ Contents d = Some f /\ f (Key d) = VTableData data;
  session_calls : Forall (callsEntryOf pd) (trace w);
  session_started : countEvents isGo (trace w) = nextId w;
  session_budget :
    countEvents isProduce (trace w)
    + 2 * length (goroutines w) + length (updates w)
    <= 2 * nextId w
}.

(** ** The create command: the issue types and the questions

    The functions of the create command that decide what is asked: the
    issue types read from the configuration, the questions for what the
    flags left out, and the two tests of the non-interactive mode. *)

Module Create.

(** A value of the configuration as viper returns it, an [interface{}]:
    nil, a bool, a string, a [[]interface{}], a
    [map[interface{}]interface{}] or something else. Of a map only the
    entries with a string key are kept: setIssueTypes looks up string
    keys only. *)
Unset Elimination Schemes.
Inductive Dyn :=
| DNil
| DBool (b : bool)
| DString (s : string)
| DSlice (items : list Dyn)
| DMap (entries : list (string * Dyn))
| DOther.
Set Elimination Schemes.

(** [tp[key]]: the value of a key that is missing is nil. *)
Fixpoint mapIndex (tp : list (string * Dyn)) (key : string) : Dyn :=
  match tp with
  | [] => DNil
  | (k, v) :: rest => if decide (k = key) then v else mapIndex rest key
  end.

(** jira.IssueType, the fields setIssueTypes fills. *)
Record IssueType := {
  ID : string;
  Name : string;
  Subtask : bool
}.

Record createParams := {
  issueType : string;
  summary : string;
  body : string;
  priority : string;
  assignee : string;
  labels : list string;
  components : list string;
  template : string;
  noInput : bool;
  debug : bool
}.

(** createCmd without its client, which neither function uses. *)
Record createCmd := {
  issueTypes : list IssueType;
  params : createParams
}.

Definition withIssueTypes (its : list IssueType) (cc : createCmd) : createCmd :=
  {| issueTypes := its; params := params cc |}.

Definition withBody (text : string) (cc : createCmd) : createCmd :=
  {| issueTypes := issueTypes cc;
     params :=
       {| issueType := issueType (params cc); summary := summary (params cc);
          body := text; priority := priority (params cc);
          assignee := assignee (params cc); labels := labels (params cc);
          components := components (params cc); template := template (params cc);
          noInput := noInput (params cc); debug := debug (params cc) |} |}.

(** create sets [cc.params.noInput = true] in the non-interactive mode. *)
Definition withNoInput (cc : createCmd) : createCmd :=
  {| issueTypes := issueTypes cc;
     params :=
       {| issueType := issueType (params cc); summary := summary (params cc);
          body := body (params cc); priority := priority (params cc);
          assignee := assignee (params cc); labels := labels (params cc);
          components := components (params cc); template := template (params cc);
          noInput := true; debug := debug (params cc) |} |}.

(** How a call ends: it returns, it ends the process through
    cmdutil.Errorf, or a type assertion panics. cmdutil.Errorf is
    declared outside the files at hand; create uses it to abort its loop
    and before it reads [user[0]], so it does not return. *)
Inductive Failure :=
| ReadFailed (err : string)     (* the template could not be read *)
| ParamsMissing.                (* summary or type missing without input *)

Inductive Run (A : Type) :=
| Returns (a : A)
| Exits (why : Failure)
| Panics.

Arguments Returns {A} a.
Arguments Exits {A} why.
Arguments Panics {A}.

(** survey.Question, with the prompts getQuestions builds. *)
Inductive Prompt :=
| Select (message : string) (options : list string)
| Input (message : string)
| JiraEditor (message default : string)
    (hideDefault appendDefault blankAllowed : bool).

Record Question := {
  qName : string;
  qPrompt : Prompt;
  qRequired : bool
}.

Section Environment.

(** jira.IssueTypeEpic is declared outside the files at hand. *)
Variable IssueTypeEpic : string.

(** cmdutil.StdinHasData and cmdutil.ReadFile, declared outside the
    files at hand: whether the standard input holds data, and the
    contents of a file or the error of reading it. *)
Variable StdinHasData : bool.
Variable ReadFile : string -> string + string.

(** The loop of setIssueTypes over the entries, [issueTypes] being what
    was appended so far; a failed type assertion is [None]. *)
Fixpoint rangeTypes (availableTypes : list Dyn) (issueTypes : list IssueType)
    : option (list IssueType) :=
  match availableTypes with
  | [] => Some issueTypes
  | DMap tp :: rest =>
      match mapIndex tp "subtask" with
      | DBool st =>
          if st then rangeTypes rest issueTypes
          else
            match mapIndex tp "name" with
            | DString name =>
                if decide (name = IssueTypeEpic) then rangeTypes rest issueTypes
                else
                  match mapIndex tp "id" with
                  | DString id =>
                      rangeTypes rest
                        (issueTypes ++ [ {| ID := id; Name := name; Subtask := st |} ])
                  | _ => None
                  end
            | _ => None
            end
      | _ => None
      end
  | _ :: _ => None
  end.

(** setIssueTypes; [config] is [viper.Get("issue.types")]. *)
Definition setIssueTypes (config : Dyn) (cc : createCmd)
    : Run (option string * createCmd) :=
  match config with
  | DSlice availableTypes =>
      match rangeTypes availableTypes [] with
      | Some its => Returns (None, withIssueTypes its cc)
      | None => Panics
      end
  | _ => Returns (Some "invalid issue types in config", cc)
  end.

(** getQuestions; it returns the questions and leaves [cc] with the body
    it may have set. *)
Definition getQuestions (cc : createCmd) : Run (list Question * createCmd) :=
  let qs0 :=
    if decide (issueType (params cc) = "") then
      [ {| qName := "issueType";
           qPrompt := Select "Issue type:" (map Name (issueTypes cc));
           qRequired := true |} ]
    else [] in
  let qs1 :=
    if decide (summary (params cc) = "") then
      qs0 ++ [ {| qName := "summary"; qPrompt := Input "Summary";
                  qRequired := true |} ]
    else qs0 in
  let read :=
    if bool_decide (template (params cc) <> "") || StdinHasData then
      ReadFile (template (params cc))
    else inl "" in
  match read with
  | inr err => Exits (ReadFailed err)
  | inl defaultBody =>
      if noInput (params cc) then
        Returns (qs1,
                 if decide (body (params cc) = "") then withBody defaultBody cc
                 else cc)
      else if decide (body (params cc) = "") then
        Returns (qs1 ++ [ {| qName := "body";
                             qPrompt := JiraEditor "Description" defaultBody
                                          true true true;
                             qRequired := false |} ],
                 cc)
      else Returns (qs1, cc)
  end.

Definition isNonInteractive (cc : createCmd) : bool :=
  StdinHasData || bool_decide (template (params cc) = "-").

Definition isMandatoryParamsMissing (cc : createCmd) : bool :=
  bool_decide (summary (params cc) = "")
  || bool_decide (issueType (params cc) = "").

(** Lines 57 to 65 of create: in the non-interactive mode noInput is
    set, and the run ends when summary or issue type is missing. *)
Definition nonInteractiveGuard (cc : createCmd) : Run createCmd :=
  if isNonInteractive cc then
    if isMandatoryParamsMissing (withNoInput cc) then Exits ParamsMissing
    else Returns (withNoInput cc)
  else Returns cc.

(** What the loop of setIssueTypes keeps of an entry it can read. *)
Definition keptType (item : Dyn) : option IssueType :=
  match item with
  | DMap tp =>
      match mapIndex tp "subtask", mapIndex tp "name", mapIndex tp "id" with
      | DBool false, DString name, DString id =>
          if decide (name = IssueTypeEpic) then None
          else Some {| ID := id; Name := name; Subtask := false |}
      | _, _, _ => None
      end
  | _ => None
  end.

(** An entry the loop can read: a map whose "subtask" is a bool and,
    unless that is true, whose "name" is a string and, unless that is
    the epic's, whose "id" is a string. *)
Definition readable (item : Dyn) : Prop :=
  exists tp,
    item = DMap tp
    /\ (mapIndex tp "subtask" = DBool true
        \/ (mapIndex tp "subtask" = DBool false
            /\ exists name,
                 mapIndex tp "name" = DString name
                 /\ (name = IssueTypeEpic
                     \/ exists id, mapIndex tp "id" = DString id))).

End Environment.

End Create.

(** ** An instance of the environment of the create command *)

Module CreateSample.

Import Create.

(** A value for jira.IssueTypeEpic. *)
Definition epic : string := "Epic".

Definition bug : Dyn :=
  DMap [("id", DString "1"); ("name", DString "Bug"); ("subtask", DBool false)].

(** The epic, without an id. *)
Definition epicType : Dyn :=
  DMap [("name", DString "Epic"); ("subtask", DBool false)].

(** A subtask, with nothing else. *)
Definition subtask : Dyn := DMap [("subtask", DBool true)].

Definition story : Dyn :=
  DMap [("id", DString "3"); ("name", DString "Story"); ("subtask", DBool false)].

(** An entry whose id is no string. *)
Definition broken : Dyn :=
  DMap [("id", DBool true); ("name", DString "Task"); ("subtask", DBool false)].

Definition config : Dyn := DSlice [bug; epicType; subtask; story].

(** A file system with one template; the empty path is the standard
    input. *)
Definition ReadFile (path : string) : string + string :=
  if decide (path = "") then inl "from stdin"
  else if decide (path = "tpl.md") then inl "template text"
  else inr "no such file".

Definition noFlags : createParams :=
  {| issueType := ""; summary := ""; body := ""; priority := ""; assignee := "";
     labels := []; components := []; template := ""; noInput := false;
     debug := false |}.

(** [-tBug -s"New Bug" --template tpl.md --no-input]. *)
Definition scripted : createParams :=
  {| issueType := "Bug"; summary := "New Bug"; body := ""; priority := "";
     assignee := ""; labels := []; components := []; template := "tpl.md";
     noInput := true; debug := false |}.

(** [-tBug -s"New Bug"] with data on the standard input. *)
Definition piped : createParams :=
  {| issueType := "Bug"; summary := "New Bug"; body := ""; priority := "";
     assignee := ""; labels := []; components := []; template := "";
     noInput := false; debug := false |}.

Definition command (p : createParams) : createCmd :=
  {| issueTypes := []; params := p |}.

End CreateSample.

(** ** Lemmas on the loops *)

Section Painting.

Variable splitText : string -> list string.
Variable pad : string -> nat -> string.

Lemma drawn_nil w : drawn (contents w) [] w = w.
Proof. destruct w; unfold drawn; simpl. by rewrite app_nil_r. Qed.

Lemma drawn_drawn t es t' es' w :
  drawn t' es' (drawn t es w) = drawn t' (es ++ es') w.
Proof. unfold drawn; simpl. by rewrite app_assoc. Qed.

Lemma printLines_run th lines : forall i w,
  printLines pad th i lines w
  = Done tt (drawn (paintLines pad i lines (contents w))
                   (printEvents pad th i lines) w).
Proof.
  induction lines as [|line rest IH]; intros i w; simpl.
  - by rewrite drawn_nil.
  - unfold mbind, M_bind, contentsSetCell, modify. rewrite IH.
    unfold drawn; simpl. by rewrite <- app_assoc.
Qed.

Lemma printText_run th s w :
  printText splitText pad th s w
  = Done tt (drawn (paintLines pad 0 (splitText s) (contents w))
                   (printEvents pad th 0 (splitText s)) w).
Proof. apply printLines_run. Qed.

Lemma setRow_run th mk row cells : forall col w,
  setRow th mk row col cells w
  = Done tt (drawn (paintRow mk row col cells (contents w))
                   (rowEvents th mk row col cells) w).
Proof.
  induction cells as [|s rest IH]; intros col w; simpl.
  - by rewrite drawn_nil.
  - unfold mbind, M_bind, contentsSetCell, modify. rewrite IH.
    unfold drawn; simpl. by rewrite <- app_assoc.
Qed.

Lemma setRows_run th rows : forall row w,
  setRows pad th row rows w
  = Done tt (drawn (paintRows pad row rows (contents w))
                   (rowsEvents pad th row rows) w).
Proof.
  induction rows as [|r rest IH]; intros row w; simpl.
  - by rewrite drawn_nil.
  - unfold mbind, M_bind. rewrite setRow_run, IH, drawn_drawn. done.
Qed.

Lemma renderLoop_run pd rest : forall i w,
  renderLoop pad pd i rest w
  = Done tt
      {| sidebar := paintMenu pad i rest (sidebar w); contents := contents w;
         selectionChangedFunc :=
           match rest with [] => selectionChangedFunc w | _ => Some pd end;
         focus := focus w; stopped := stopped w; updates := updates w;
         goroutines := goroutines w; nextId := nextId w;
         trace := trace w ++ menuEvents pad i rest |}.
Proof.
  induction rest as [|d rest IH]; intros i w; simpl.
  - destruct w; simpl. by rewrite app_nil_r.
  - unfold mbind, M_bind, sidebarSetCell, setSelectionChangedFunc, modify.
    rewrite IH. simpl. rewrite <- app_assoc. simpl.
    by destruct rest.
Qed.

(** *** SetCell on one-column tables *)

Lemma SetCell_column pre xs c :
  SetCell (length pre) 0 c (column (pre ++ xs)) = column (pre ++ c :: tail xs).
Proof.
  unfold SetCell, column.
  destruct xs as [|x xs]; simpl.
  - rewrite app_nil_r, length_map.
    replace (S (length pre) - length pre) with 1 by lia. simpl.
    rewrite lookup_app_r by (rewrite length_map; lia).
    rewrite length_map, Nat.sub_diag. simpl.
    replace (length pre) with (length (map (fun c0 : TableCell => [c0]) pre) + 0)
      at 1 by (rewrite length_map; lia).
    rewrite insert_app_r. simpl. by rewrite map_app.
  - rewrite length_map, length_app. simpl.
    replace (S (length pre) - (length pre + S (length xs))) with 0 by lia.
    simpl. rewrite app_nil_r, !map_app. simpl.
    rewrite lookup_app_r by (rewrite length_map; lia).
    rewrite length_map, Nat.sub_diag. simpl.
    replace (length pre) with (length (map (fun c0 : TableCell => [c0]) pre) + 0)
      at 1 by (rewrite length_map; lia).
    by rewrite insert_app_r.
Qed.

(** Printing over a one-column table replaces its first rows and leaves
    the rows below the text. *)
Lemma paintLines_column lines : forall pre xs,
  paintLines pad (length pre) lines (column (pre ++ xs))
  = column (pre ++ map (textCell pad) lines ++ drop (length lines) xs).
Proof.
  induction lines as [|line rest IH]; intros pre xs; simpl.
  - by rewrite drop_0.
  - rewrite SetCell_column.
    replace (S (length pre)) with (length (pre ++ [textCell pad line]))
      by (rewrite length_app; simpl; lia).
    replace (pre ++ textCell pad line :: tail xs)
      with ((pre ++ [textCell pad line]) ++ tail xs) by (by rewrite <- app_assoc).
    rewrite IH, <- app_assoc. simpl.
    by destruct xs; simpl; rewrite ?drop_nil.
Qed.

Lemma paintLines_empty lines :
  paintLines pad 0 lines [] = column (map (textCell pad) lines).
Proof.
  pose proof (paintLines_column lines [] []) as H. simpl in H.
  by rewrite drop_nil, app_nil_r in H.
Qed.

Lemma paintLines_over lines xs :
  paintLines pad 0 lines (column xs)
  = column (map (textCell pad) lines ++ drop (length lines) xs).
Proof. apply (paintLines_column lines [] xs). Qed.

Lemma paintMenu_column rest : forall pre,
  paintMenu pad (length pre) rest (column pre)
  = column (pre ++ imap (fun j d => menuCell pad (length pre + j) d) rest).
Proof.
  induction rest as [|d rest IH]; intros pre; simpl.
  - by rewrite app_nil_r.
  - pose proof (SetCell_column pre [] (menuCell pad (length pre) d)) as H.
    rewrite app_nil_r in H. simpl in H. rewrite H.
    replace (S (length pre)) with (length (pre ++ [menuCell pad (length pre) d]))
      by (rewrite length_app; simpl; lia).
    rewrite IH, <- app_assoc. simpl.
    rewrite Nat.add_0_r. do 3 f_equal.
    apply imap_ext. intros j x _. simpl.
    rewrite length_app. simpl. f_equal. lia.
Qed.

Lemma column_imap {A : Type} (l : list A) : forall f : nat -> A -> TableCell,
  column (imap f l) = imap (fun i x => [f i x]) l.
Proof.
  induction l as [|x l IH]; intros f; simpl; [done|].
  f_equal. apply (IH (f ∘ S)).
Qed.

Lemma paintMenu_empty pd :
  paintMenu pad 0 pd [] = imap (fun i d => [menuCell pad i d]) pd.
Proof.
  pose proof (paintMenu_column pd []) as H. simpl in H. rewrite H.
  apply column_imap.
Qed.

(** The selection-changed function, for a row that has an entry. *)
Lemma selectionChanged_run pd r c d w :
  pd !! r = Some d ->
  selectionChanged splitText pad pd r c w
  = Done tt
      {| sidebar := sidebar w;
         contents := column (map (textCell pad) (splitText "Loading..."));
         selectionChangedFunc := selectionChangedFunc w;
         focus := focus w; stopped := stopped w; updates := updates w;
         goroutines := goroutines w ++ [(nextId w, d)];
         nextId := S (nextId w);
         trace := trace w
                  ++ (LoopThread, ContentsClear)
                     :: printEvents pad LoopThread 0 (splitText "Loading...")
                  ++ [(LoopThread, Go (nextId w))] |}.
Proof.
  intros Hr. unfold selectionChanged, mbind, M_bind, contentsClear, modify.
  rewrite printText_run, Hr. unfold go, drawn, record, withGoroutines. simpl.
  rewrite paintLines_empty. do 2 f_equal.
  rewrite <- !app_assoc. done.
Qed.

Lemma dispatchAll_cons e rest w :
  dispatchAll splitText pad (e :: rest) w
  = match dispatch splitText pad e w with
    | Done _ w1 => dispatchAll splitText pad rest w1
    | Panicked p w1 => Panicked p w1
    end.
Proof. reflexivity. Qed.

(** The focus-toggle key, given to the loop. *)
Lemma dispatch_toggle w :
  dispatch splitText pad (KeyPress (KeyRune "w")) w
  = Done tt (record LoopThread (ScreenSetFocus (otherPane (focus w)))
               (withFocus (otherPane (focus w)) w)).
Proof.
  unfold dispatch, mbind, M_bind, get, paneInputCapture.
  destruct (focus w) eqn:Hfocus; simpl;
    unfold mbind, M_bind, HasFocus, get; rewrite Hfocus; simpl; done.
Qed.

End Painting.

(** ** The grid a run of row writes builds *)






Section Grid.

Variable mk : string -> TableCell.



End Grid.


(** ** The order of the calls *)

Lemma quiet_refl th w : quiet th w w.
Proof. split; [|done]. exists []. by rewrite app_nil_r. Qed.

Lemma quiet_trans th w1 w2 w3 : quiet th w1 w2 -> quiet th w2 w3 -> quiet th w1 w3.
Proof.
  intros [(es1 & H1 & F1) [G1 U1]] [(es2 & H2 & F2) [G2 U2]].
  split; [|split; congruence].
  exists (es1 ++ es2). split; [by rewrite H2, H1, app_assoc|].
  by apply Forall_app.
Qed.

Lemma quiet_drawn th t es w :
  Forall (fun x => x.1 = th) es -> quiet th w (drawn t es w).
Proof. intros F. split; [|done]. by exists es. Qed.

Lemma quiet_record th e w : quiet th w (record th e w).
Proof. split; [|done]. exists [(th, e)]. split; [done|]. by repeat constructor. Qed.

Lemma quiet_step th e w w0 :
  trace w0 = trace w -> goroutines w0 = goroutines w -> updates w0 = updates w ->
  quiet th w (record th e w0).
Proof.
  intros Ht Hg Hu. split; [|done]. exists [(th, e)]. simpl. rewrite Ht.
  split; [done|]. by repeat constructor.
Qed.

Lemma quiet_record_contents th e f w : quiet th w (record th e (withContents f w)).
Proof. by apply quiet_step. Qed.

Section Order.

Variable splitText : string -> list string.
Variable pad : string -> nat -> string.

Lemma printEvents_thread th lines : forall i,
  Forall (fun x => x.1 = th) (printEvents pad th i lines).
Proof.
  induction lines as [|l rest IH]; intros i; simpl; constructor; [done|apply IH].
Qed.

Lemma rowEvents_thread th mk row cells : forall col,
  Forall (fun x => x.1 = th) (rowEvents th mk row col cells).
Proof.
  induction cells as [|c rest IH]; intros col; simpl; constructor; [done|apply IH].
Qed.

Lemma rowsEvents_thread th rows : forall row,
  Forall (fun x => x.1 = th) (rowsEvents pad th row rows).
Proof.
  induction rows as [|r rest IH]; intros row; simpl; [constructor|].
  apply Forall_app. split; [apply rowEvents_thread | apply IH].
Qed.

Lemma menuEvents_thread rest : forall i,
  Forall (fun x => x.1 = LoopThread) (menuEvents pad i rest).
Proof.
  induction rest as [|d rest IH]; intros i; simpl; constructor; [done|apply IH].
Qed.

Lemma selectionEvents_thread id :
  Forall (fun x => x.1 = LoopThread) (selectionEvents splitText pad id).
Proof.
  unfold selectionEvents. constructor; [done|].
  apply Forall_app. split; [apply printEvents_thread|by repeat constructor].
Qed.

Lemma printText_quiet th s w :
  quiet th w (worldOf (printText splitText pad th s w)).
Proof. rewrite printText_run. apply quiet_drawn, printEvents_thread. Qed.

(** The queued update, whatever the function returns and whether or not
    it panics, only makes calls of its own thread. *)
Lemma tableUpdate_quiet th pd w :
  quiet th w (worldOf (tableUpdate splitText pad th pd w)).
Proof.
  unfold tableUpdate, mbind, M_bind, contentsClear, modify.
  set (w1 := record th ContentsClear (withContents Clear w)).
  assert (quiet th w w1) as Q1 by apply quiet_record_contents.
  destruct (Contents pd) as [f|]; [|exact Q1].
  unfold invoke, mbind, M_bind, modify, mret, M_ret.
  set (w2 := record th (Produce (Key pd)) w1).
  assert (quiet th w w2) as Q2 by (eapply quiet_trans; [exact Q1|apply quiet_record]).
  destruct (f (Key pd)) as [s|data|]; [exact Q2| |exact Q2].
  destruct (decide (length data = 1)) as [_|_].
  - eapply quiet_trans; [exact Q2|apply printText_quiet].
  - destruct data as [|header body]; [exact Q2|].
    unfold renderTableHeader, renderTableCell.
    rewrite setRow_run, setRows_run. simpl.
    eapply quiet_trans; [exact Q2|].
    eapply quiet_trans; apply quiet_drawn;
      [apply rowEvents_thread | apply rowsEvents_thread].
Qed.

(** renderContents only makes calls of its goroutine; it starts no
    goroutine and queues at most its own update. *)
Lemma renderContents_calls id d w :
  let w' := worldOf (renderContents splitText pad id d w) in
  (exists es, trace w' = trace w ++ es /\ Forall (fun x => x.1 = FetchTask id) es)
  /\ goroutines w' = goroutines w
  /\ (updates w' = updates w \/ updates w' = updates w ++ [(id, TableUpdate d)]).
Proof.
  assert (forall w', quiet (FetchTask id) w w' ->
    (exists es, trace w' = trace w ++ es /\ Forall (fun x => x.1 = FetchTask id) es)
    /\ goroutines w' = goroutines w
    /\ (updates w' = updates w \/ updates w' = updates w ++ [(id, TableUpdate d)]))
    as Hq.
  { intros w' (He & Hg & Hu). split; [exact He|]. split; [exact Hg|]. by left. }
  unfold renderContents.
  destruct (Contents d) as [f|] eqn:Hc; [|apply Hq, printText_quiet].
  unfold mbind, M_bind, invoke, mbind, M_bind, modify, mret, M_ret.
  destruct (f (Key d)) as [s|data|] eqn:Hf.
  - apply Hq. eapply quiet_trans; [apply quiet_record|apply printText_quiet].
  - simpl. split; [|split; [done|by right]].
    exists [(FetchTask id, Produce (Key d)); (FetchTask id, QueueUpdateDraw)].
    split; [by rewrite <- app_assoc|]. by repeat constructor.
  - apply Hq. apply quiet_record.
Qed.

(** The selection-changed function either starts a goroutine after its
    calls, or panics on the index after the same calls but the last. *)
Lemma selectionChanged_calls pd r c w :
  let w' := worldOf (selectionChanged splitText pad pd r c w) in
  (trace w' = trace w ++ selectionEvents splitText pad (nextId w)
   /\ updates w' = updates w
   /\ exists d, goroutines w' = goroutines w ++ [(nextId w, d)])
  \/ quiet LoopThread w w'.
Proof.
  destruct (pd !! r) as [d|] eqn:Hr.
  - left. rewrite (selectionChanged_run splitText pad pd r c d w Hr). simpl.
    split; [done|]. split; [done|]. by exists d.
  - right. unfold selectionChanged, mbind, M_bind, contentsClear, modify.
    rewrite printText_run, Hr. simpl.
    eapply quiet_trans; [apply quiet_record_contents|].
    apply quiet_drawn, printEvents_thread.
Qed.

Lemma keyPress_quiet k w :
  quiet LoopThread w (worldOf (dispatch splitText pad (KeyPress k) w)).
Proof.
  unfold dispatch, mbind, M_bind, get, paneInputCapture.
  assert (forall view next,
    exists w1, inputCapture view next k w = Done k w1 /\ quiet LoopThread w w1) as Hcap.
  { intros view next. unfold inputCapture. destruct k as [r| |].
    - unfold mbind, M_bind.
      destruct (decide (r = "q"%char)) as [_|_].
      + eexists. split; [reflexivity|]. by apply quiet_step.
      + destruct (decide (r = "w"%char)) as [_|_].
        * unfold mbind, M_bind, HasFocus, get.
          destruct (bool_decide (focus w = view)); simpl;
            (eexists; split; [reflexivity|by apply quiet_step]).
        * eexists. split; [reflexivity|apply quiet_refl].
    - eexists. split; [reflexivity|apply quiet_refl].
    - eexists. split; [reflexivity|apply quiet_refl]. }
  assert (forall w1, quiet LoopThread w w1 ->
            quiet LoopThread w (worldOf (doneFunc k w1))) as Hdone.
  { intros w1 Q. destruct k; simpl; try exact Q.
    eapply quiet_trans; [exact Q|by apply quiet_step]. }
  destruct (focus w).
  - destruct (Hcap Sidebar ContentsPane) as (w1 & -> & Q). by apply Hdone.
  - destruct (Hcap ContentsPane Sidebar) as (w1 & -> & Q). by apply Hdone.
Qed.

(** *** The invariant of the loop *)

Lemma started_app id tr es :
  started splitText pad id tr -> started splitText pad id (tr ++ es).
Proof.
  intros (pre & mid & ->). exists pre, (mid ++ es). by rewrite <- !app_assoc.
Qed.

Lemma madeFor_inj id id' th : madeFor id th -> madeFor id' th -> id = id'.
Proof. intros [->| ->] [H|H]; congruence. Qed.

Lemma loadingPrecedes_app tr es th0 :
  loadingPrecedes splitText pad tr ->
  Forall (fun x => x.1 = th0) es ->
  (forall id, madeFor id th0 -> started splitText pad id tr) ->
  loadingPrecedes splitText pad (tr ++ es).
Proof.
  intros Hord Hes Hst tr1 th e tr2 id Heq Hfor.
  apply app_eq_inv in Heq as [(k & Htr & Hk)|(k & Htr1 & Hk)].
  - destruct k as [|x k]; simpl in Hk.
    + rewrite app_nil_r in Htr. subst tr1 es.
      apply Forall_cons in Hes as [Hth _]. simpl in Hth. subst th0.
      by apply Hst.
    + injection Hk as <- _. by apply (Hord tr1 th e k id).
  - subst tr1 es. apply Forall_app in Hes as [_ Hes].
    apply Forall_cons in Hes as [Hth _]. simpl in Hth. subst th0.
    by apply started_app, Hst.
Qed.

Lemma loadingPrecedes_loop tr :
  Forall (fun x => x.1 = LoopThread) tr -> loadingPrecedes splitText pad tr.
Proof.
  intros Htr. apply (loadingPrecedes_app [] tr LoopThread); [|exact Htr|].
  - intros tr1 th e tr2 id Heq. by destruct tr1.
  - intros id [H|H]; discriminate.
Qed.

Lemma coherent_quiet th w w' :
  coherent splitText pad w ->
  quiet th w w' ->
  (forall id, madeFor id th -> started splitText pad id (trace w)) ->
  coherent splitText pad w'.
Proof.
  intros (Hord & Hgo & Hup) ((es & Htr & Hes) & Hg & Hu) Hst.
  unfold coherent. rewrite Htr, Hg, Hu. split; [|split].
  - by apply (loadingPrecedes_app _ _ th).
  - intros id d Hin. by apply started_app, (Hgo id d).
  - intros id c Hin. by apply started_app, (Hup id c).
Qed.

Lemma coherent_quiet_loop w w' :
  coherent splitText pad w -> quiet LoopThread w w' -> coherent splitText pad w'.
Proof.
  intros Hw Hq. apply (coherent_quiet LoopThread w w' Hw Hq).
  intros id [H|H]; discriminate.
Qed.

Lemma takeGoroutine_Some id gs : forall d rest,
  takeGoroutine id gs = Some (d, rest) ->
  (id, d) ∈ gs /\ forall x, x ∈ rest -> x ∈ gs.
Proof.
  induction gs as [|[i d0] gs IH]; intros d rest; simpl; [done|].
  destruct (decide (i = id)) as [->|Hne].
  - intros [= <- <-]. split; [left|]. intros x Hx. by right.
  - destruct (takeGoroutine id gs) as [[d' rest']|]; [|done].
    intros [= <- <-]. destruct (IH d' rest' eq_refl) as [Hin Hsub].
    split; [by right|]. intros x Hx.
    apply elem_of_cons in Hx as [->|Hx]; [left|right; by apply Hsub].
Qed.

(** Whatever the loop handles, and whether or not the handling panics,
    the invariant is kept. *)
Lemma dispatch_coherent e w :
  coherent splitText pad w -> coherent splitText pad (worldOf (dispatch splitText pad e w)).
Proof.
  intros Hw. destruct e as [r|k|id| |].
  - unfold dispatch, mbind, M_bind, get.
    destruct (selectionChangedFunc w) as [pd|]; [|exact Hw].
    destruct (decide (r < GetRowCount (sidebar w))) as [_|_]; [|exact Hw].
    destruct (selectionChanged_calls pd r 0 w) as [(Htr & Hu & d & Hg)|Hq];
      [|by apply (coherent_quiet_loop w)].
    destruct Hw as (Hord & Hgo & Hup).
    unfold coherent. rewrite Htr, Hu, Hg. split; [|split].
    + apply (loadingPrecedes_app _ _ LoopThread); [done| |].
      * apply selectionEvents_thread.
      * intros id [H|H]; discriminate.
    + intros id d' Hin. apply elem_of_app in Hin as [Hin|Hin].
      * by apply started_app, (Hgo id d').
      * apply list_elem_of_singleton in Hin as [= -> ->].
        exists (trace w), []. by rewrite app_nil_r.
    + intros id c Hin. by apply started_app, (Hup id c).
  - by apply (coherent_quiet_loop w), keyPress_quiet.
  - unfold dispatch, mbind, M_bind, get.
    destruct (takeGoroutine id (goroutines w)) as [[d rest]|] eqn:Htake;
      [|exact Hw].
    apply takeGoroutine_Some in Htake as [Hin Hsub].
    unfold modify.
    set (w1 := withGoroutines (fun _ => rest) (nextId w) w).
    destruct Hw as (Hord & Hgo & Hup).
    pose proof (Hgo id d Hin) as Hid.
    destruct (renderContents_calls id d w1) as ((es & Htr & Hes) & Hg & Hu).
    unfold coherent. rewrite Htr, Hg. simpl. split; [|split].
    + apply (loadingPrecedes_app _ _ (FetchTask id)); [done|done|].
      intros id' Hfor. by rewrite <- (madeFor_inj id id' (FetchTask id)); [|left|].
    + intros id' d' Hin'. apply started_app, (Hgo id' d'). by apply Hsub.
    + intros id' c Hin'. apply started_app.
      destruct Hu as [Hu|Hu]; rewrite Hu in Hin'; simpl in Hin'.
      * by apply (Hup id' c).
      * apply elem_of_app in Hin' as [Hin'|Hin']; [by apply (Hup id' c)|].
        by apply list_elem_of_singleton in Hin' as [= -> ->].
  - unfold dispatch, mbind, M_bind, get.
    destruct (updates w) as [|[id c] rest] eqn:Hq; [exact Hw|].
    unfold modify.
    set (w1 := withUpdates (fun _ => rest) w).
    destruct Hw as (Hord & Hgo & Hup).
    assert (started splitText pad id (trace w)) as Hid
      by (apply (Hup id c); rewrite Hq; left).
    assert (coherent splitText pad w1) as Hw1.
    { split; [exact Hord|]. split; [exact Hgo|]. simpl.
      intros id' c' Hin'. apply (Hup id' c'). rewrite Hq. by right. }
    destruct c as [pd]. simpl.
    apply (coherent_quiet (QueuedUpdate id) w1); [exact Hw1|apply tableUpdate_quiet|].
    intros id' Hfor.
    by rewrite <- (madeFor_inj id id' (QueuedUpdate id)); [|right|].
  - exact Hw.
Qed.

Lemma eventLoop_coherent schedule : forall w,
  coherent splitText pad w ->
  coherent splitText pad (worldOf (eventLoop splitText pad schedule w)).
Proof.
  induction schedule as [|e rest IH]; intros w Hw; [exact Hw|].
  assert (coherent splitText pad
            (worldOf ((dispatch splitText pad e;;
                       halt ← get stopped;
                       if (halt : bool) then mret None
                       else eventLoop splitText pad rest) w))) as Hstep.
  { pose proof (dispatch_coherent e w Hw) as Hd.
    unfold mbind, M_bind, get.
    destruct (dispatch splitText pad e w) as [[] w1|p w1]; simpl in *; [|exact Hd].
    destruct (stopped w1); [exact Hd|by apply IH]. }
  destruct e; try exact Hstep. exact Hw.
Qed.

(** The state in which Render makes the paint call satisfies the
    invariant when nothing was started before. *)
Lemma coherent_unstarted w :
  goroutines w = [] -> updates w = [] ->
  Forall (fun x => x.1 = LoopThread) (trace w) ->
  coherent splitText pad w.
Proof.
  intros Hg Hu Htr. split; [by apply loadingPrecedes_loop|].
  rewrite Hg, Hu. split; intros id x Hin; by apply elem_of_nil in Hin.
Qed.

Lemma Render_coherent pv pd schedule opts :
  coherent splitText pad
    (worldOf (Render splitText pad pv (eventLoop splitText pad schedule) pd
                (NewPreview opts).2)).
Proof.
  unfold Render. destruct (decide (length pd = 0)) as [_|_].
  - simpl. apply coherent_unstarted; simpl; done.
  - unfold mbind, M_bind. rewrite renderLoop_run, printText_run.
    apply eventLoop_coherent, coherent_unstarted; simpl; [done|done|].
    apply Forall_app. split; [apply menuEvents_thread|apply printEvents_thread].
Qed.

End Order.

(** ** Calls of the [Contents] functions *)

Lemma countEvents_app p tr1 tr2 :
  countEvents p (tr1 ++ tr2) = countEvents p tr1 + countEvents p tr2.
Proof. induction tr1 as [|x tr1 IH]; simpl; [done|]. rewrite IH. lia. Qed.

Section Calls.

Variable splitText : string -> list string.
Variable pad : string -> nat -> string.

Lemma printEvents_no_call th lines : forall i,
  countEvents isProduce (printEvents pad th i lines) = 0.
Proof. induction lines as [|l rest IH]; intros i; simpl; [done|apply IH]. Qed.

Lemma rowEvents_no_call th mk row cells : forall col,
  countEvents isProduce (rowEvents th mk row col cells) = 0.
Proof. induction cells as [|s rest IH]; intros col; simpl; [done|apply IH]. Qed.

Lemma rowsEvents_no_call th rows : forall row,
  countEvents isProduce (rowsEvents pad th row rows) = 0.
Proof.
  induction rows as [|r rest IH]; intros row; simpl; [done|].
  by rewrite countEvents_app, rowEvents_no_call, IH.
Qed.

Lemma menuEvents_no_call rest : forall i,
  countEvents isProduce (menuEvents pad i rest) = 0.
Proof. induction rest as [|d rest IH]; intros i; simpl; [done|apply IH]. Qed.

(** Render calls no [Contents] function before the paint call. *)
Lemma Render_calls_no_producer pv pd w :
  pd <> [] ->
  exists w1,
    (forall paint, Render splitText pad pv paint pd w = paint w1)
    /\ countEvents isProduce (trace w1) = countEvents isProduce (trace w).
Proof.
  intros Hne. unfold Render.
  destruct (decide (length pd = 0)) as [Hz|_].
  { destruct pd; [done | discriminate]. }
  unfold mbind, M_bind. rewrite renderLoop_run, printText_run.
  eexists. split; [reflexivity|]. simpl.
  rewrite !countEvents_app, menuEvents_no_call, printEvents_no_call. lia.
Qed.

(** The selection-changed function calls none either. *)
Lemma selectionChanged_calls_no_producer pd r c d w :
  pd !! r = Some d ->
  countEvents isProduce (trace (worldOf (selectionChanged splitText pad pd r c w)))
  = countEvents isProduce (trace w).
Proof.
  intros Hr. rewrite (selectionChanged_run splitText pad pd r c d w Hr). simpl.
  rewrite countEvents_app. simpl.
  rewrite countEvents_app, printEvents_no_call. simpl. lia.
Qed.

(** A function that returns a string is called once, by the goroutine,
    which then sets the cells of the contents itself. *)
Lemma renderContents_text_run id d f s w :
  Contents d = Some f ->
  f (Key d) = VString s ->
  renderContents splitText pad id d w
  = Done tt (drawn (paintLines pad 0 (splitText s) (contents w))
                   ((FetchTask id, Produce (Key d))
                    :: printEvents pad (FetchTask id) 0 (splitText s)) w).
Proof.
  intros Hc Hf. unfold renderContents. rewrite Hc.
  unfold mbind, M_bind, invoke, mbind, M_bind, modify, mret, M_ret.
  rewrite Hf, printText_run. unfold drawn. simpl. by rewrite <- app_assoc.
Qed.

(** Without a function the goroutine sets the cells of the contents
    itself. *)
Lemma renderContents_nil_run id d w :
  Contents d = None ->
  renderContents splitText pad id d w
  = Done tt (drawn (paintLines pad 0 (splitText "No contents defined.") (contents w))
                   (printEvents pad (FetchTask id) 0 (splitText "No contents defined."))
                   w).
Proof. intros Hc. unfold renderContents. by rewrite Hc, printText_run. Qed.

(** A function that returns a table: the goroutine calls it and queues
    the update, and leaves the tables alone. *)
Lemma renderContents_table_run id d f data w :
  Contents d = Some f ->
  f (Key d) = VTableData data ->
  renderContents splitText pad id d w
  = Done tt
      {| sidebar := sidebar w; contents := contents w;
         selectionChangedFunc := selectionChangedFunc w;
         focus := focus w; stopped := stopped w;
         updates := updates w ++ [(id, TableUpdate d)];
         goroutines := goroutines w; nextId := nextId w;
         trace := trace w ++ [(FetchTask id, Produce (Key d));
                              (FetchTask id, QueueUpdateDraw)] |}.
Proof.
  intros Hc Hf. unfold renderContents. rewrite Hc.
  unfold mbind, M_bind, invoke, mbind, M_bind, modify, mret, M_ret.
  rewrite Hf. unfold queueUpdateDraw, modify, record, withUpdates. simpl.
  by rewrite <- app_assoc.
Qed.

(** The queued update calls the function a second time. *)
Lemma tableUpdate_calls_again th d f data w :
  Contents d = Some f ->
  f (Key d) = VTableData data ->
  countEvents isProduce (trace (worldOf (tableUpdate splitText pad th d w)))
  = S (countEvents isProduce (trace w)).
Proof.
  intros Hc Hf. unfold tableUpdate. rewrite Hc.
  unfold mbind, M_bind, contentsClear, invoke, mbind, M_bind, modify, mret, M_ret.
  rewrite Hf.
  destruct (decide (length data = 1)) as [H1|H1].
  - rewrite printText_run. simpl.
    rewrite !countEvents_app, printEvents_no_call. simpl. lia.
  - destruct data as [|header body].
    + simpl. rewrite !countEvents_app. simpl. lia.
    + unfold renderTableHeader, renderTableCell.
      rewrite setRow_run, setRows_run. simpl.
      rewrite !countEvents_app, rowEvents_no_call, rowsEvents_no_call.
      simpl. lia.
Qed.

End Calls.

(** ** The claims *)

Section Claims.

Variable splitText : string -> list string.
Variable pad : string -> nat -> string.

(** C4. Render on a sequence of no entries returns errNoData and leaves
    the state as it was: no cell of the sidebar or of the contents is
    set, no handler is installed, nothing is recorded, and the paint
    call, whatever it would do, is not made. *)
Theorem Render_empty_fails_unpainted (pv : Preview) (paint : M (option Error))
    (pd : list PreviewData) (w : World) :
  length pd = 0 ->
  Render splitText pad pv paint pd w = Done (Some errNoData) w.
Proof.
  intros Hlen. unfold Render.
  destruct (decide (length pd = 0)) as [_|Hpos].
  - reflexivity.
  - contradiction.
Qed.

(** C5. On a sidebar without rows, Render with at least one entry makes
    the paint call in a state whose sidebar has one row per entry, row
    [i] being the single cell with the padded Menu of entry [i], bold at
    row 0 and only there. *)
Theorem Render_populates_sidebar (pv : Preview) (paint : M (option Error))
    (pd : list PreviewData) (w : World) :
  pd <> [] ->
  sidebar w = [] ->
  exists w1,
    Render splitText pad pv paint pd w = paint w1
    /\ sidebar w1 = imap (fun i d => [menuCell pad i d]) pd
    /\ GetRowCount (sidebar w1) = length pd
    /\ forall i d, pd !! i = Some d ->
         rowCells (sidebar w1) i
         = [ {| Text := pad (Menu d) 1;
                CellStyle := {| bold := bool_decide (i = 0) |};
                NotSelectable := false;
                MaxWidth := sidebarMaxWidth |} ].
Proof.
  intros Hne Hside.
  unfold Render. destruct (decide (length pd = 0)) as [Hz|_].
  { destruct pd; [done | discriminate]. }
  unfold mbind, M_bind. rewrite renderLoop_run, printText_run.
  eexists. split; [reflexivity|]. simpl. rewrite Hside, paintMenu_empty.
  split; [done|]. split.
  - unfold GetRowCount. by rewrite length_imap.
  - intros i d Hi. unfold rowCells. rewrite list_lookup_imap, Hi. simpl.
    unfold menuCell, SetStyle, SetMaxWidth, NewTableCell, Bold, StyleDefault.
    simpl. destruct (decide (i = 0)) as [->|Hn]; simpl.
    + done.
    + by rewrite bool_decide_eq_false_2.
Qed.

(** C3. The selection-changed function, called for a row [r] that has
    an entry, clears the contents, prints "Loading..." and only then
    starts the goroutine: the go statement is its last call, the
    contents hold the placeholder and nothing else at that point, and
    the goroutine is still waiting, no [Contents] function called.
    And in the trace of Render on a new preview, whatever the loop
    handles and in whatever order, every call made by a goroutine, or by
    the update it queued, comes after the clear, the cell writes of
    "Loading..." and the go statement of the selection that started that
    goroutine. *)
Theorem selection_paints_loading_before_dispatch (pd : list PreviewData)
    (r c : nat) (d : PreviewData) (w : World) :
  pd !! r = Some d ->
  selectionChanged splitText pad pd r c w
  = Done tt
      {| sidebar := sidebar w;
         contents := column (map (textCell pad) (splitText "Loading..."));
         selectionChangedFunc := selectionChangedFunc w;
         focus := focus w; stopped := stopped w; updates := updates w;
         goroutines := goroutines w ++ [(nextId w, d)];
         nextId := S (nextId w);
         trace := trace w
                  ++ (LoopThread, ContentsClear)
                     :: printEvents pad LoopThread 0 (splitText "Loading...")
                  ++ [(LoopThread, Go (nextId w))] |}
  /\ forall pv opts schedule tr1 th e tr2 id,
       trace (worldOf (Render splitText pad pv (eventLoop splitText pad schedule)
                         pd (NewPreview opts).2))
       = tr1 ++ (th, e) :: tr2 ->
       th = FetchTask id \/ th = QueuedUpdate id ->
       exists pre mid,
         tr1 = pre
               ++ ((LoopThread, ContentsClear)
                   :: printEvents pad LoopThread 0 (splitText "Loading...")
                   ++ [(LoopThread, Go id)])
               ++ mid.
Proof.
  intros Hr. split.
  - unfold selectionChanged, mbind, M_bind, contentsClear, modify.
    rewrite printText_run, Hr. unfold go, drawn, record, withGoroutines. simpl.
    rewrite paintLines_empty. do 2 f_equal.
    rewrite <- !app_assoc. done.
  - intros pv opts schedule tr1 th e tr2 id Htrace Hfor.
    destruct (Render_coherent splitText pad pv pd schedule opts) as (Hord & _ & _).
    exact (Hord tr1 th e tr2 id Htrace Hfor).
Qed.

(** C6. For an entry whose function returns a table of one row, the
    goroutine only queues the update; the update, run by the loop,
    clears the contents and prints "No results to show.", so that the
    contents hold the placeholder and no cell of the table. *)
Theorem single_row_table_shows_no_results (pd : PreviewData)
    (f : string -> Value) (row : list string) :
  Contents pd = Some f ->
  f (Key pd) = VTableData [row] ->
  (forall id w,
      renderContents splitText pad id pd w
      = Done tt
          {| sidebar := sidebar w; contents := contents w;
             selectionChangedFunc := selectionChangedFunc w;
             focus := focus w; stopped := stopped w;
             updates := updates w ++ [(id, TableUpdate pd)];
             goroutines := goroutines w; nextId := nextId w;
             trace := trace w ++ [(FetchTask id, Produce (Key pd));
                                  (FetchTask id, QueueUpdateDraw)] |})
  /\ (forall th w,
      runClosure splitText pad th (TableUpdate pd) w
      = Done tt
          (drawn (column (map (textCell pad) (splitText "No results to show.")))
                 ((th, ContentsClear) :: (th, Produce (Key pd))
                  :: printEvents pad th 0 (splitText "No results to show."))
                 w)).
Proof.
  intros Hc Hf. split.
  - intros id w. apply (renderContents_table_run _ _ _ _ _ _ _ Hc Hf).
  - intros th w. unfold runClosure, tableUpdate. rewrite Hc.
    unfold mbind, M_bind, contentsClear, invoke, mbind, M_bind, modify, mret, M_ret.
    rewrite Hf. simpl. rewrite printText_run. unfold drawn. simpl.
    rewrite paintLines_empty, <- !app_assoc. done.
Qed.


(** C8. For an entry without a [Contents] function, renderContents
    prints "No contents defined." and returns, in any state, without a
    panic. Once the goroutine of a selection of that entry has run, the
    first rows of the contents are the lines of the placeholder; and
    when the placeholder has at least as many lines as "Loading...",
    the contents hold the placeholder and nothing else. *)
Theorem nil_producer_shows_no_contents (pd : list PreviewData) (r c : nat)
    (d : PreviewData) (w : World) :
  Contents d = None ->
  pd !! r = Some d ->
  (forall id w0,
      renderContents splitText pad id d w0
      = printText splitText pad (FetchTask id) "No contents defined." w0)
  /\ exists w',
      (selectionChanged splitText pad pd r c;;
       renderContents splitText pad (nextId w) d) w = Done tt w'
      /\ take (length (splitText "No contents defined.")) (contents w')
         = column (map (textCell pad) (splitText "No contents defined."))
      /\ (length (splitText "Loading...")
          <= length (splitText "No contents defined.") ->
          contents w'
          = column (map (textCell pad) (splitText "No contents defined."))).
Proof.
  intros Hc Hr. split.
  - intros id w0. unfold renderContents. by rewrite Hc.
  - unfold mbind at 1. unfold M_bind.
    rewrite (selectionChanged_run splitText pad pd r c d w Hr).
    unfold renderContents. rewrite Hc, printText_run. simpl.
    eexists. split; [reflexivity|]. simpl.
    rewrite paintLines_over. split.
    + unfold column. rewrite map_app, take_app_length'; [done|].
      by rewrite !length_map.
    + intros Hlen. rewrite drop_ge, app_nil_r; [done|].
      by rewrite length_map.
Qed.

(** C10. For an entry whose function returns neither a string nor a
    table, renderContents calls the function and does nothing else: the
    state is the one before but for the record of the call. After a
    selection of that entry and the run of its goroutine the contents
    still hold "Loading..." and no update is queued that would change
    them. *)
Theorem other_value_leaves_loading (pd : list PreviewData) (r c : nat)
    (d : PreviewData) (f : string -> Value) (w : World) :
  Contents d = Some f ->
  f (Key d) = VOther ->
  pd !! r = Some d ->
  (forall id w0,
      renderContents splitText pad id d w0
      = Done tt (record (FetchTask id) (Produce (Key d)) w0))
  /\ exists w',
      (selectionChanged splitText pad pd r c;;
       renderContents splitText pad (nextId w) d) w
      = Done tt w'
      /\ contents w' = column (map (textCell pad) (splitText "Loading..."))
      /\ updates w' = updates w.
Proof.
  intros Hc Hf Hr.
  assert (forall id w0,
    renderContents splitText pad id d w0
    = Done tt (record (FetchTask id) (Produce (Key d)) w0))
    as Hrun.
  { intros id w0. unfold renderContents. rewrite Hc.
    unfold mbind, M_bind, invoke, mbind, M_bind, modify, mret, M_ret.
    by rewrite Hf. }
  split; [exact Hrun|].
  unfold mbind at 1. unfold M_bind.
  rewrite (selectionChanged_run splitText pad pd r c d w Hr).
  rewrite Hrun. simpl.
  eexists. split; [reflexivity|]. done.
Qed.

(** C9. The key [w] moves the focus to the other of the two tables,
    and pressed an even number of times it leaves the focus on the
    table that had it. *)
Theorem focus_toggle_even (n : nat) (w : World) :
  (exists w1,
      dispatch splitText pad (KeyPress (KeyRune "w")) w = Done tt w1
      /\ focus w1 = otherPane (focus w))
  /\ exists w',
      dispatchAll splitText pad (replicate (2 * n) (KeyPress (KeyRune "w"))) w
      = Done tt w'
      /\ focus w' = focus w.
Proof.
  split.
  { rewrite dispatch_toggle. eexists. split; [reflexivity|done]. }
  revert w. induction n as [|n IH]; intros w.
  - exists w. done.
  - replace (2 * S n) with (S (S (2 * n))) by lia.
    rewrite !replicate_S, dispatchAll_cons, dispatch_toggle.
    set (w1 := record LoopThread (ScreenSetFocus (otherPane (focus w)))
                 (withFocus (otherPane (focus w)) w)).
    lazy beta iota. rewrite dispatchAll_cons, dispatch_toggle.
    set (w2 := record LoopThread (ScreenSetFocus (otherPane (focus w1)))
                 (withFocus (otherPane (focus w1)) w1)).
    lazy beta iota.
    destruct (IH w2) as (w' & Hrun & Hfocus).
    exists w'. split; [exact Hrun|]. rewrite Hfocus. simpl.
    by destruct (focus w).
Qed.

End Claims.

(** ** Runs on given entries *)

(** C1. The claim fails on the code for an entry without a function and
    for one whose function returns a string: after a selection, the
    goroutine sets a cell of the contents table itself, and
    QueueUpdateDraw is never called. Only for a table does the goroutine
    go through QueueUpdateDraw and leave the cells to the loop. *)
Theorem text_and_nil_written_off_loop :
  let nothing :=
    trace (worldOf (Sample.run [Sample.undefinedEntry] [SelectRow 0; RunGoroutine 0])) in
  let text :=
    trace (worldOf (Sample.run [Sample.about] [SelectRow 0; RunGoroutine 0])) in
  let table :=
    trace (worldOf (Sample.run [Sample.bugList] [SelectRow 0; RunGoroutine 0])) in
  selectEvents isOffLoop nothing
  = [(FetchTask 0, ContentsSetCell 0 0 (textCell Sample.pad "No contents defined."))]
  /\ countEvents isQueueUpdateDraw nothing = 0
  /\ selectEvents isOffLoop text
     = [(FetchTask 0, Produce "K3");
        (FetchTask 0, ContentsSetCell 0 0 (textCell Sample.pad "About K3"))]
  /\ countEvents isQueueUpdateDraw text = 0
  /\ selectEvents isOffLoop table
     = [(FetchTask 0, Produce "K1"); (FetchTask 0, QueueUpdateDraw)].
Proof. vm_compute. repeat split. Qed.

(** C2. The claim fails on the code for an entry whose function returns a
    table: one selection leads to two calls of the function, one by the
    goroutine and one by the update the loop runs. A function that
    returns a string is called once, and nothing is called before a
    selection. *)
Theorem table_producer_called_twice :
  let table :=
    trace (worldOf (Sample.run [Sample.bugList] [SelectRow 0; RunGoroutine 0; DrawUpdate])) in
  let text :=
    trace (worldOf (Sample.run [Sample.about] [SelectRow 0; RunGoroutine 0; DrawUpdate])) in
  let unselected := trace (worldOf (Sample.run Sample.entries [])) in
  selectEvents isProduce table
  = [(FetchTask 0, Produce "K1"); (QueuedUpdate 0, Produce "K1")]
  /\ countEvents isProduce table = 2
  /\ countEvents isProduce text = 1
  /\ countEvents isProduce unselected = 0.
Proof. vm_compute. repeat split. Qed.

(** Render of the five sample entries on a new preview. *)
Lemma Render_populates_sidebar_witness :
  Sample.entries <> []
  /\ sidebar Sample.fresh = []
  /\ exists w1,
       Sample.run Sample.entries [] = Sample.Paint [] w1
       /\ GetRowCount (sidebar w1) = 5
       /\ map Text (rowCells (sidebar w1) 2) = [" About"].
Proof.
  split; [discriminate|]. split; [reflexivity|].
  destruct (Render_populates_sidebar Sample.splitText Sample.pad
              (NewPreview []).1 (Sample.Paint []) Sample.entries Sample.fresh)
    as (w1 & Hrun & _ & Hrows & Hcell); [discriminate | reflexivity |].
  exists w1. split; [exact Hrun|]. split; [exact Hrows|].
  rewrite (Hcell 2 Sample.about); reflexivity.
Defined.

(** A selection of the third sample entry, and the place of the first
    call of its goroutine in the trace. *)
Lemma selection_paints_loading_before_dispatch_witness :
  let tr :=
    trace (worldOf (Sample.run Sample.entries [SelectRow 2; RunGoroutine 0])) in
  Sample.entries !! 2 = Some Sample.about
  /\ (exists w',
        selectionChanged Sample.splitText Sample.pad Sample.entries 2 0 Sample.fresh
        = Done tt w'
        /\ map (map Text) (contents w') = [[" Loading..."]]
        /\ map fst (goroutines w') = [0]
        /\ last (trace w') = Some (LoopThread, Go 0))
  /\ tr !! 9 = Some (FetchTask 0, Produce "K3")
  /\ exists pre mid,
       take 9 tr
       = pre
         ++ ((LoopThread, ContentsClear)
             :: printEvents Sample.pad LoopThread 0 (Sample.splitText "Loading...")
             ++ [(LoopThread, Go 0)])
         ++ mid.
Proof.
  intros tr.
  pose proof (selection_paints_loading_before_dispatch Sample.splitText Sample.pad
                Sample.entries 2 0 Sample.about Sample.fresh eq_refl)
    as [Hrun Horder].
  split; [reflexivity|]. split; [|split; [reflexivity|]].
  - eexists. split; [exact Hrun|]. vm_compute. repeat split.
  - apply (Horder (NewPreview []).1 [] [SelectRow 2; RunGoroutine 0]
             (take 9 tr) (FetchTask 0) (Produce "K3") (drop 10 tr) 0).
    + vm_compute. reflexivity.
    + left. reflexivity.
Defined.

(** The entry "Empty", whose table has the header only. *)
Lemma single_row_table_shows_no_results_witness :
  Contents Sample.emptyList = Some (fun _ => VTableData [["ID"; "Summary"]])
  /\ (fun _ : string => VTableData [["ID"; "Summary"]]) (Key Sample.emptyList)
     = VTableData [["ID"; "Summary"]]
  /\ exists w',
       runClosure Sample.splitText Sample.pad (QueuedUpdate 0)
         (TableUpdate Sample.emptyList) Sample.fresh = Done tt w'
       /\ map (map Text) (contents w') = [[" No results to show."]].
Proof.
  split; [reflexivity|]. split; [reflexivity|].
  eexists. split.
  - apply (single_row_table_shows_no_results Sample.splitText Sample.pad
             Sample.emptyList (fun _ => VTableData [["ID"; "Summary"]])
             ["ID"; "Summary"]); reflexivity.
  - vm_compute. reflexivity.
Defined.


(** The entry "Undefined", which has no function. *)
Lemma nil_producer_shows_no_contents_witness :
  Contents Sample.undefinedEntry = None
  /\ Sample.entries !! 3 = Some Sample.undefinedEntry
  /\ exists w',
       (selectionChanged Sample.splitText Sample.pad Sample.entries 3 0;;
        renderContents Sample.splitText Sample.pad 0 Sample.undefinedEntry)
         Sample.fresh = Done tt w'
       /\ map (map Text) (contents w') = [[" No contents defined."]].
Proof.
  split; [reflexivity|]. split; [reflexivity|].
  destruct (nil_producer_shows_no_contents Sample.splitText Sample.pad
              Sample.entries 3 0 Sample.undefinedEntry Sample.fresh)
    as (_ & w' & Hrun & _ & Hall); [reflexivity | reflexivity |].
  exists w'. split; [exact Hrun|].
  rewrite Hall; [reflexivity | simpl; lia].
Defined.

(** The entry "Odd", whose function returns neither text nor table. *)
Lemma other_value_leaves_loading_witness :
  Contents Sample.oddEntry = Some (fun _ => VOther)
  /\ Sample.entries !! 4 = Some Sample.oddEntry
  /\ exists w',
       (selectionChanged Sample.splitText Sample.pad Sample.entries 4 0;;
        renderContents Sample.splitText Sample.pad 0 Sample.oddEntry)
         Sample.fresh = Done tt w'
       /\ contents w' = column (map (textCell Sample.pad) (Sample.splitText "Loading..."))
       /\ updates w' = updates Sample.fresh.
Proof.
  split; [reflexivity|]. split; [reflexivity|].
  apply (other_value_leaves_loading Sample.splitText Sample.pad
           Sample.entries 4 0 Sample.oddEntry (fun _ => VOther) Sample.fresh);
    reflexivity.
Defined.

(** Render of no entry, whatever the loop would have handled. *)
Lemma Render_empty_fails_unpainted_witness :
  length ([] : list PreviewData) = 0
  /\ Sample.run [] [SelectRow 0; RunGoroutine 0] = Done (Some errNoData) Sample.fresh.
Proof.
  split; [reflexivity|].
  apply (Render_empty_fails_unpainted Sample.splitText Sample.pad).
  reflexivity.
Defined.

(** ** The session Render starts *)

Lemma countEvents_cells p es :
  (forall th r c cell, p (th, ContentsSetCell r c cell) = false) ->
  Forall isCellWrite es ->
  countEvents p es = 0.
Proof.
  intros Hp. induction 1 as [|[th e] es Hx _ IH]; simpl; [done|].
  destruct e; try done. by rewrite Hp, IH.
Qed.

Lemma callsEntryOf_cells pd es :
  Forall isCellWrite es -> Forall (callsEntryOf pd) es.
Proof.
  intros H. eapply Forall_impl; [exact H|]. intros [th e] Hx. by destruct e.
Qed.

Section Session.

Variable splitText : string -> list string.
Variable pad : string -> nat -> string.

Lemma printEvents_cells th lines : forall i,
  Forall isCellWrite (printEvents pad th i lines).
Proof.
  induction lines as [|l rest IH]; intros i; simpl; constructor; [done|apply IH].
Qed.

Lemma rowEvents_cells th mk row cells : forall col,
  Forall isCellWrite (rowEvents th mk row col cells).
Proof.
  induction cells as [|c rest IH]; intros col; simpl; constructor; [done|apply IH].
Qed.

Lemma rowsEvents_cells th rows : forall row,
  Forall isCellWrite (rowsEvents pad th row rows).
Proof.
  induction rows as [|r rest IH]; intros row; simpl; [constructor|].
  apply Forall_app. split; [apply rowEvents_cells | apply IH].
Qed.

Lemma printEvents_count p th i lines :
  (forall th r c cell, p (th, ContentsSetCell r c cell) = false) ->
  countEvents p (printEvents pad th i lines) = 0.
Proof. intros Hp. apply countEvents_cells; [exact Hp|apply printEvents_cells]. Qed.

(** One step of a session that starts no goroutine: the calls [es] are
    added, within the budget the waiting goroutines and the queued
    updates leave. *)
Lemma session_step pd side w w' es :
  session pd side w ->
  sidebar w' = sidebar w ->
  selectionChangedFunc w' = selectionChangedFunc w ->
  nextId w' = nextId w ->
  trace w' = trace w ++ es ->
  countEvents isGo es = 0 ->
  Forall (callsEntryOf pd) es ->
  (forall id d, (id, d) ∈ goroutines w' -> d ∈ pd) ->
  (forall id c, (id, c) ∈ updates w' ->
     exists d f data,
       c = TableUpdate d /\ d ∈ pd /\ Contents d = Some f /\ f (Key d) = VTableData data) ->
  countEvents isProduce es + 2 * length (goroutines w') + length (updates w')
  <= 2 * length (goroutines w) + length (updates w) ->
  session pd side w'.
Proof.
  intros [Hs Hh Hg Hu Hc Hn Hb] Hs' Hh' Hn' Ht Hgo Hcalls Hg' Hu' Hb'.
  split.
  - congruence.
  - congruence.
  - exact Hg'.
  - exact Hu'.
  - rewrite Ht. by apply Forall_app.
  - rewrite Ht, countEvents_app, Hgo, Hn'. lia.
  - rewrite Ht, countEvents_app, Hn'. lia.
Qed.

(** The same for a step that only writes cells of the contents. *)
Lemma session_drawn pd side w t es :
  session pd side w -> Forall isCellWrite es -> session pd side (drawn t es w).
Proof.
  intros Hw Hes. apply (session_step pd side w _ es Hw); try done.
  - by apply countEvents_cells.
  - by apply callsEntryOf_cells.
  - apply Hw.
  - apply Hw.
  - simpl. rewrite (countEvents_cells isProduce es); [lia|done|done].
Qed.

(** A key stops the screen, moves the focus, or does nothing. *)
Lemma keyPress_cases k w :
  exists w',
    dispatch splitText pad (KeyPress k) w = Done tt w'
    /\ (w' = w
        \/ w' = record LoopThread ScreenStop (withStopped true w)
        \/ exists p, w' = record LoopThread (ScreenSetFocus p) (withFocus p w)).
Proof.
  unfold dispatch, mbind, M_bind, get, paneInputCapture.
  assert (forall view next,
    exists w1, inputCapture view next k w = Done k w1
      /\ ((w1 = w /\ k <> KeyRune "q"%char)
          \/ (w1 = record LoopThread ScreenStop (withStopped true w)
              /\ k = KeyRune "q"%char)
          \/ (exists p, w1 = record LoopThread (ScreenSetFocus p) (withFocus p w))
             /\ k = KeyRune "w"%char)) as Hcap.
  { intros view next. unfold inputCapture. destruct k as [r| |].
    - unfold mbind, M_bind.
      destruct (decide (r = "q"%char)) as [->|Hq].
      + eexists. split; [reflexivity|]. right. left. done.
      + destruct (decide (r = "w"%char)) as [->|Hw].
        * unfold mbind, M_bind, HasFocus, get.
          destruct (bool_decide (focus w = view)); simpl;
            (eexists; split; [reflexivity|]; right; right; split; [by eexists|done]).
        * eexists. split; [reflexivity|]. left. split; [done|congruence].
    - eexists. split; [reflexivity|]. left. done.
    - eexists. split; [reflexivity|]. left. done. }
  assert (exists w1, paneInputCapture (focus w) k w = Done k w1
      /\ ((w1 = w /\ k <> KeyRune "q"%char)
          \/ (w1 = record LoopThread ScreenStop (withStopped true w)
              /\ k = KeyRune "q"%char)
          \/ (exists p, w1 = record LoopThread (ScreenSetFocus p) (withFocus p w))
             /\ k = KeyRune "w"%char)) as (w1 & Hrun & Hw1)
    by (unfold paneInputCapture; destruct (focus w); apply Hcap).
  unfold paneInputCapture in Hrun. rewrite Hrun.
  destruct Hw1 as [[-> Hk]|[[-> ->]|[(p & ->) ->]]].
  - destruct k; simpl; eexists; (split; [reflexivity|]); auto.
  - simpl. eexists. split; [reflexivity|]. auto.
  - simpl. eexists. split; [reflexivity|]. right. right. by exists p.
Qed.


Lemma takeGoroutine_length id gs d rest :
  takeGoroutine id gs = Some (d, rest) -> length gs = S (length rest).
Proof.
  revert d rest. induction gs as [|[i d0] gs IH]; intros d rest; simpl; [done|].
  destruct (decide (i = id)) as [_|_].
  - by intros [= <- <-].
  - destruct (takeGoroutine id gs) as [[d' rest']|]; [|done].
    intros [= <- <-]. simpl. by rewrite (IH d' rest').
Qed.

(** Whatever the loop handles, and whether or not the handling panics,
    the session goes on. *)
Lemma dispatch_session pd side e w :
  session pd side w -> session pd side (worldOf (dispatch splitText pad e w)).
Proof.
  intros Hw. destruct e as [r|k|id| |].
  - unfold dispatch, mbind, M_bind, get. rewrite (session_handler _ _ _ Hw).
    destruct (decide (r < GetRowCount (sidebar w))) as [_|_]; [|exact Hw].
    destruct (pd !! r) as [d|] eqn:Hr.
    + rewrite (selectionChanged_run splitText pad pd r 0 d w Hr). simpl.
      destruct Hw as [Hs Hh Hg Hu Hc Hn Hb]. split; simpl; try done.
      * intros id d' Hin. apply elem_of_app in Hin as [Hin|Hin]; [by eapply Hg|].
        apply list_elem_of_singleton in Hin as [= _ ->].
        by eapply list_elem_of_lookup_2.
      * apply Forall_app. split; [done|]. constructor; [done|].
        apply Forall_app. split; [|by repeat constructor].
        apply callsEntryOf_cells, printEvents_cells.
      * rewrite countEvents_app. simpl. rewrite countEvents_app. simpl.
        rewrite (printEvents_count isGo); [lia|done].
      * rewrite countEvents_app. simpl. rewrite countEvents_app. simpl.
        rewrite (printEvents_count isProduce), length_app; [simpl; lia|done].
    + unfold selectionChanged, mbind, M_bind, contentsClear, modify.
      rewrite printText_run, Hr. simpl.
      apply session_drawn; [|apply printEvents_cells].
      apply (session_step pd side w _ [(LoopThread, ContentsClear)] Hw);
        try done; try apply Hw.
      all: first [by repeat constructor | simpl; lia].
  - destruct (keyPress_cases k w) as (w' & -> & [->|[->|(p & ->)]]); simpl.
    + exact Hw.
    + apply (session_step pd side w _ [(LoopThread, ScreenStop)] Hw);
        try done; try apply Hw.
      all: first [by repeat constructor | simpl; lia].
    + apply (session_step pd side w _ [(LoopThread, ScreenSetFocus p)] Hw);
        try done; try apply Hw.
      all: first [by repeat constructor | simpl; lia].
  - unfold dispatch, mbind, M_bind, get.
    destruct (takeGoroutine id (goroutines w)) as [[d rest]|] eqn:Htake;
      [|exact Hw].
    pose proof (takeGoroutine_length _ _ _ _ Htake) as Hlen.
    apply takeGoroutine_Some in Htake as [Hin Hsub].
    pose proof (session_goroutines _ _ _ Hw id d Hin) as Hd.
    unfold modify.
    set (w1 := withGoroutines (fun _ => rest) (nextId w) w).
    assert (session pd side w1) as Hw1.
    { apply (session_step pd side w w1 [] Hw); try done.
      - by rewrite app_nil_r.
      - simpl. intros id' d' Hin'. eapply (session_goroutines _ _ _ Hw). by apply Hsub.
      - apply Hw.
      - simpl. lia. }
    assert (2 * length (goroutines w1) + 2 = 2 * length (goroutines w)) as Hpay
      by (simpl; lia).
    unfold renderContents.
    destruct (Contents d) as [f|] eqn:Hc.
    + unfold mbind, M_bind, invoke, mbind, M_bind, modify, mret, M_ret.
      assert (callsEntryOf pd (FetchTask id, Produce (Key d))) as Hcall.
      { simpl. exists d. split; [done|]. split; [done|]. by rewrite Hc. }
      destruct (f (Key d)) as [s|data|] eqn:Hf.
      * rewrite printText_run. simpl.
        apply (session_step pd side w _
                 ((FetchTask id, Produce (Key d))
                  :: printEvents pad (FetchTask id) 0 (splitText s)) Hw).
        -- done.
        -- done.
        -- done.
        -- simpl. by rewrite <- app_assoc.
        -- simpl. apply printEvents_count. done.
        -- constructor; [done|]. apply callsEntryOf_cells, printEvents_cells.
        -- apply Hw1.
        -- apply Hw1.
        -- simpl. rewrite (printEvents_count isProduce); [lia|done].
      * simpl.
        apply (session_step pd side w _
                 [(FetchTask id, Produce (Key d)); (FetchTask id, QueueUpdateDraw)] Hw).
        -- done.
        -- done.
        -- done.
        -- simpl. by rewrite <- app_assoc.
        -- done.
        -- by repeat constructor.
        -- apply Hw1.
        -- simpl. intros id' c Hin'. apply elem_of_app in Hin' as [Hin'|Hin'].
           ++ by apply (session_updates _ _ _ Hw id' c).
           ++ apply list_elem_of_singleton in Hin' as [= _ ->].
              by exists d, f, data.
        -- simpl. rewrite length_app. simpl. lia.
      * simpl.
        apply (session_step pd side w _ [(FetchTask id, Produce (Key d))] Hw).
        -- done.
        -- done.
        -- done.
        -- done.
        -- done.
        -- by repeat constructor.
        -- apply Hw1.
        -- apply Hw1.
        -- simpl. lia.
    + rewrite printText_run. simpl.
      apply session_drawn; [exact Hw1|apply printEvents_cells].
  - unfold dispatch, mbind, M_bind, get.
    destruct (updates w) as [|[id c] rest] eqn:Hq; [exact Hw|].
    destruct (session_updates _ _ _ Hw id c) as (d & f & data & -> & Hd & Hc & Hf);
      [rewrite Hq; left|].
    unfold modify. simpl.
    set (w1 := withUpdates (fun _ => rest) w).
    unfold tableUpdate, mbind, M_bind, contentsClear, modify. rewrite Hc.
    unfold invoke, mbind, M_bind, modify, mret, M_ret. rewrite Hf.
    set (w2 := record (QueuedUpdate id) (Produce (Key d))
                 (record (QueuedUpdate id) ContentsClear (withContents Clear w1))).
    assert (session pd side w2) as Hw2.
    { apply (session_step pd side w w2
               [(QueuedUpdate id, ContentsClear); (QueuedUpdate id, Produce (Key d))]
               Hw); try done.
      - simpl. by rewrite <- app_assoc.
      - constructor; [done|]. constructor; [|done].
        simpl. exists d. split; [done|]. split; [done|]. by rewrite Hc.
      - apply Hw.
      - simpl. intros id' c' Hin'. apply (session_updates _ _ _ Hw id' c').
        rewrite Hq. by right.
      - simpl. rewrite Hq. simpl. lia. }
    destruct (decide (length data = 1)) as [_|_].
    + rewrite printText_run. simpl.
      apply session_drawn; [exact Hw2|apply printEvents_cells].
    + destruct data as [|header body]; [exact Hw2|].
      unfold renderTableHeader, renderTableCell.
      rewrite setRow_run, setRows_run. simpl.
      apply session_drawn; [|apply rowsEvents_cells].
      apply session_drawn; [exact Hw2|apply rowEvents_cells].
  - exact Hw.
Qed.

Lemma eventLoop_session pd side schedule : forall w,
  session pd side w ->
  session pd side (worldOf (eventLoop splitText pad schedule w)).
Proof.
  induction schedule as [|e rest IH]; intros w Hw; [exact Hw|].
  assert (session pd side
            (worldOf ((dispatch splitText pad e;;
                       halt ← get stopped;
                       if (halt : bool) then mret None
                       else eventLoop splitText pad rest) w))) as Hstep.
  { pose proof (dispatch_session pd side e w Hw) as Hd.
    unfold mbind, M_bind, get.
    destruct (dispatch splitText pad e w) as [[] w1|p w1]; simpl in *; [|exact Hd].
    destruct (stopped w1); [exact Hd|by apply IH]. }
  destruct e; try exact Hstep. exact Hw.
Qed.



Lemma menuEvents_count p rest : forall i,
  (forall r c cell, p (LoopThread, SidebarSetCell r c cell) = false) ->
  countEvents p (menuEvents pad i rest) = 0.
Proof.
  induction rest as [|d rest IH]; intros i Hp; simpl; [done|].
  by rewrite Hp, IH.
Qed.

Lemma menuEvents_calls pd rest : forall i,
  Forall (callsEntryOf pd) (menuEvents pad i rest).
Proof.
  induction rest as [|d rest IH]; intros i; simpl; constructor; [done|apply IH].
Qed.

(** Render on a new preview starts a session on its entries. *)
Lemma Render_session pv pd opts :
  pd <> [] ->
  exists w1,
    (forall paint,
        Render splitText pad pv paint pd (NewPreview opts).2 = paint w1)
    /\ session pd (imap (fun i d => [menuCell pad i d]) pd) w1
    /\ contents w1 = column (map (textCell pad) (splitText (initialText pv)))
    /\ focus w1 = Sidebar /\ stopped w1 = false
    /\ goroutines w1 = [] /\ updates w1 = [] /\ nextId w1 = 0
    /\ trace w1 = menuEvents pad 0 pd
                  ++ printEvents pad LoopThread 0 (splitText (initialText pv)).
Proof.
  intros Hne. unfold Render.
  destruct (decide (length pd = 0)) as [Hz|_].
  { destruct pd; [done | discriminate]. }
  unfold mbind, M_bind. rewrite renderLoop_run, printText_run.
  eexists. split; [reflexivity|]. simpl.
  rewrite paintLines_empty.
  split; [|by repeat split].
  split; simpl.
  - apply paintMenu_empty.
  - by destruct pd.
  - intros id d Hin. by apply elem_of_nil in Hin.
  - intros id c Hin. by apply elem_of_nil in Hin.
  - apply Forall_app. split; [apply menuEvents_calls|].
    apply callsEntryOf_cells, printEvents_cells.
  - rewrite countEvents_app, menuEvents_count, printEvents_count; done.
  - rewrite countEvents_app, menuEvents_count, printEvents_count; done.
Qed.

End Session.

(** ** More of preview.go *)

(** Reads the fields of a state that is written out. *)
Ltac read_world :=
  cbn [sidebar contents selectionChangedFunc focus stopped updates goroutines
       nextId trace withSidebar withContents withHandler withFocus withStopped
       withUpdates withGoroutines record drawn].

Section More.

Variable splitText : string -> list string.
Variable pad : string -> nat -> string.

Lemma eventLoop_cons e rest w :
  e <> TerminalFailure ->
  eventLoop splitText pad (e :: rest) w
  = match dispatch splitText pad e w with
    | Done _ w1 =>
        if stopped w1 then Done None w1 else eventLoop splitText pad rest w1
    | Panicked p w1 => Panicked p w1
    end.
Proof.
  intros He.
  assert (eventLoop splitText pad (e :: rest) w
          = (dispatch splitText pad e;;
             halt ← get stopped;
             if (halt : bool) then mret None
             else eventLoop splitText pad rest) w) as ->
    by (destruct e; first [reflexivity | contradiction]).
  unfold mbind, M_bind, get.
  destruct (dispatch splitText pad e w) as [[] w1|p w1]; [|reflexivity].
  by destruct (stopped w1).
Qed.

(** X1. While the loop runs, the sidebar stays as Render filled it and
    the selection-changed function stays the one that captures the
    entries given to Render, whatever is handled. *)
Theorem loop_keeps_sidebar_and_handler (pv : Preview) (pd : list PreviewData)
    (opts : list PreviewOption) (schedule : list LoopEvent) :
  pd <> [] ->
  let w' := worldOf (Render splitText pad pv (eventLoop splitText pad schedule) pd
                       (NewPreview opts).2) in
  sidebar w' = imap (fun i d => [menuCell pad i d]) pd
  /\ selectionChangedFunc w' = Some pd.
Proof.
  intros Hne w'.
  destruct (Render_session splitText pad pv pd opts Hne) as (w1 & Hrun & Hs & _).
  unfold w'. rewrite Hrun.
  pose proof (eventLoop_session splitText pad pd _ schedule w1 Hs) as Hend.
  split; apply Hend.
Qed.

(** X2. Every call of a [Contents] function made in a run of Render is
    made with the Key of an entry given to Render, one that has a
    function. *)
Theorem contents_called_with_own_key (pv : Preview) (pd : list PreviewData)
    (opts : list PreviewOption) (schedule : list LoopEvent)
    (th : Thread) (key : string) :
  (th, Produce key)
    ∈ trace (worldOf (Render splitText pad pv (eventLoop splitText pad schedule) pd
                        (NewPreview opts).2)) ->
  exists d, d ∈ pd /\ Key d = key /\ Contents d <> None.
Proof.
  destruct pd as [|d0 pd0].
  - simpl. intros Hin. by apply elem_of_nil in Hin.
  - destruct (Render_session splitText pad pv (d0 :: pd0) opts) as (w1 & Hrun & Hs & _);
      [done|].
    rewrite Hrun.
    pose proof (eventLoop_session splitText pad _ _ schedule w1 Hs) as Hend.
    intros Hin.
    pose proof (session_calls _ _ _ Hend) as Hcalls.
    rewrite Forall_forall in Hcalls. exact (Hcalls _ Hin).
Qed.

(** X3. In a run of Render the [Contents] functions are called at most
    twice for each go statement, that is for each selection handled. *)
Theorem calls_at_most_twice_per_selection (pv : Preview) (pd : list PreviewData)
    (opts : list PreviewOption) (schedule : list LoopEvent) :
  let tr := trace (worldOf (Render splitText pad pv (eventLoop splitText pad schedule)
                              pd (NewPreview opts).2)) in
  countEvents isProduce tr <= 2 * countEvents isGo tr.
Proof.
  destruct pd as [|d0 pd0].
  - simpl. lia.
  - destruct (Render_session splitText pad pv (d0 :: pd0) opts) as (w1 & Hrun & Hs & _);
      [done|].
    rewrite Hrun.
    pose proof (eventLoop_session splitText pad _ _ schedule w1 Hs) as Hend.
    pose proof (session_budget _ _ _ Hend) as Hb.
    pose proof (session_started _ _ _ Hend) as Hn.
    simpl. lia.
Qed.


(** X5. An entry whose function returns the table without rows brings
    the loop down: after a selection of its row, the run of the
    goroutine and of the update it queued, the update panics on
    [data[0]], the contents cleared. *)
Theorem empty_table_panics (pv : Preview) (pd : list PreviewData)
    (opts : list PreviewOption) (r : nat) (d : PreviewData)
    (f : string -> Value) (rest : list LoopEvent) :
  pd !! r = Some d ->
  Contents d = Some f ->
  f (Key d) = VTableData [] ->
  exists w',
    Render splitText pad pv
      (eventLoop splitText pad (SelectRow r :: RunGoroutine 0 :: DrawUpdate :: rest))
      pd (NewPreview opts).2
    = Panicked IndexOutOfRange w'
    /\ contents w' = [].
Proof.
  intros Hr Hc Hf.
  assert (pd <> []) as Hne by (by destruct pd).
  destruct (Render_session splitText pad pv pd opts Hne)
    as (w1 & Hrun & Hs & _ & _ & Hstop & Hg & Hu & Hn & _).
  rewrite Hrun.
  rewrite eventLoop_cons by done.
  unfold dispatch at 1. unfold mbind, M_bind, get.
  rewrite (session_handler _ _ _ Hs), (session_sidebar _ _ _ Hs).
  destruct (decide (r < GetRowCount (imap (fun i d => [menuCell pad i d]) pd)))
    as [_|Hge].
  2: { exfalso. apply Hge. unfold GetRowCount. rewrite length_imap.
       by eapply lookup_lt_Some. }
  rewrite (selectionChanged_run splitText pad pd r 0 d w1 Hr).
  read_world. rewrite Hstop, Hg, Hu, Hn. cbn [app].
  rewrite eventLoop_cons by done.
  unfold dispatch at 1. unfold mbind, M_bind, get. read_world.
  cbn [takeGoroutine]. destruct (decide (0 = 0)) as [_|]; [|done].
  unfold modify.
  rewrite (renderContents_table_run splitText pad 0 d f [] _ Hc Hf).
  read_world. cbn [app].
  rewrite eventLoop_cons by done.
  unfold dispatch at 1. unfold mbind, M_bind, get. read_world.
  unfold modify. cbn [runClosure].
  unfold tableUpdate, mbind, M_bind, contentsClear, modify.
  rewrite Hc. unfold invoke, mbind, M_bind, modify, mret, M_ret. rewrite Hf.
  simpl. eexists. split; reflexivity.
Qed.

(** X6. The key [q] and the Escape key end the loop from either pane:
    the screen is stopped, nothing else changes, and what the schedule
    holds after the key is not handled. *)
Theorem quit_and_escape_end_loop (w : World) (rest : list LoopEvent) :
  eventLoop splitText pad (KeyPress (KeyRune "q") :: rest) w
  = Done None (record LoopThread ScreenStop (withStopped true w))
  /\ eventLoop splitText pad (KeyPress KeyEsc :: rest) w
     = Done None (record LoopThread ScreenStop (withStopped true w)).
Proof.
  split; rewrite eventLoop_cons by done;
    unfold dispatch, mbind, M_bind, get, paneInputCapture;
    destruct (focus w); reflexivity.
Qed.

(** X7. For a key other than [q], [w] and Escape, the input capture of
    either pane hands the same event back to the table and changes
    nothing itself (not the focus, not the tables, and the screen is not
    stopped), and the done function does nothing either. What the table
    then does with the key, such as moving the selection, which calls
    the selection-changed function, is not the capture's doing. *)
Theorem other_keys_change_nothing (k : KeyEvent) (view nextView : Pane)
    (w : World) :
  k <> KeyRune "q" ->
  k <> KeyRune "w" ->
  k <> KeyEsc ->
  inputCapture view nextView k w = Done k w
  /\ doneFunc k w = Done tt w.
Proof.
  intros Hq Hw He. split.
  - unfold inputCapture. destruct k as [r| |]; try done.
    unfold mbind, M_bind.
    destruct (decide (r = "q"%char)) as [->|_]; [done|].
    destruct (decide (r = "w"%char)) as [->|_]; [done|].
    reflexivity.
  - by destruct k.
Qed.

(** X8. A string result is printed over what the contents hold, without
    a clear: the lines of the text take the first rows, and the rows
    below them stay. Nothing is queued and the sidebar is not touched. *)
Theorem text_result_paints_over (d : PreviewData) (f : string -> Value)
    (s : string) (id : nat) (xs : list TableCell) (w : World) :
  Contents d = Some f ->
  f (Key d) = VString s ->
  contents w = column xs ->
  exists w',
    renderContents splitText pad id d w = Done tt w'
    /\ contents w'
       = column (map (textCell pad) (splitText s)
                 ++ drop (length (splitText s)) xs)
    /\ updates w' = updates w
    /\ sidebar w' = sidebar w.
Proof.
  intros Hc Hf Hcol.
  rewrite (renderContents_text_run splitText pad id d f s w Hc Hf).
  eexists. split; [reflexivity|]. simpl.
  rewrite Hcol, paintLines_over. done.
Qed.



(** X11. Render on a new preview made with WithInitialText prints that
    text in the empty contents before the paint call, installs the
    selection-changed function, and has then started no goroutine,
    queued no update and called no [Contents] function; the sidebar has
    the focus and the screen is not stopped. *)
Theorem Render_prints_initial_text (opts : list PreviewOption) (text : string)
    (pd : list PreviewData) :
  pd <> [] ->
  exists w1,
    (forall paint,
        Render splitText pad (NewPreview (opts ++ [WithInitialText text])).1 paint pd
          (NewPreview (opts ++ [WithInitialText text])).2 = paint w1)
    /\ contents w1 = column (map (textCell pad) (splitText text))
    /\ selectionChangedFunc w1 = Some pd
    /\ goroutines w1 = [] /\ updates w1 = []
    /\ focus w1 = Sidebar /\ stopped w1 = false
    /\ countEvents isProduce (trace w1) = 0
    /\ countEvents isGo (trace w1) = 0.
Proof.
  intros Hne.
  destruct (Render_session splitText pad
              (NewPreview (opts ++ [WithInitialText text])).1 pd
              (opts ++ [WithInitialText text]) Hne)
    as (w1 & Hrun & Hs & Hcont & Hfocus & Hstop & Hg & Hu & Hn & Htr).
  exists w1. split; [exact Hrun|].
  split.
  { rewrite Hcont. unfold NewPreview. simpl. rewrite foldl_app. done. }
  split; [apply Hs|]. split; [done|]. split; [done|]. split; [done|].
  split; [done|]. split.
  - pose proof (session_budget _ _ _ Hs) as Hb. rewrite Hn in Hb. lia.
  - by rewrite (session_started _ _ _ Hs).
Qed.

Lemma paintMenu_over_column rest : forall pre xs,
  paintMenu pad (length pre) rest (column (pre ++ xs))
  = column (pre ++ imap (fun j d => menuCell pad (length pre + j) d) rest
            ++ drop (length rest) xs).
Proof.
  induction rest as [|d rest IH]; intros pre xs; simpl.
  - by rewrite drop_0.
  - rewrite SetCell_column.
    replace (S (length pre)) with (length (pre ++ [menuCell pad (length pre) d]))
      by (rewrite length_app; simpl; lia).
    replace (pre ++ menuCell pad (length pre) d :: tail xs)
      with ((pre ++ [menuCell pad (length pre) d]) ++ tail xs)
      by (by rewrite <- app_assoc).
    rewrite IH, <- app_assoc. simpl.
    rewrite Nat.add_0_r. do 3 f_equal.
    assert (drop (length rest) (tail xs) = drop (S (length rest)) xs) as ->
      by (by destruct xs; simpl; rewrite ?drop_nil).
    f_equal.
    apply imap_ext. intros j x _. simpl.
    rewrite length_app. simpl. f_equal. lia.
Qed.

(** X12. Render clears neither table. On a sidebar and contents of one
    column, as an earlier Render leaves them, the entries take the first
    rows of the sidebar and the initial text the first rows of the
    contents; the rows below them are still there when the paint call is
    made. *)
Theorem Render_keeps_rows_below (pv : Preview) (paint : M (option Error))
    (pd : list PreviewData) (xs ys : list TableCell) (w : World) :
  pd <> [] ->
  sidebar w = column xs ->
  contents w = column ys ->
  exists w1,
    Render splitText pad pv paint pd w = paint w1
    /\ sidebar w1
       = column (imap (fun i d => menuCell pad i d) pd ++ drop (length pd) xs)
    /\ contents w1
       = column (map (textCell pad) (splitText (initialText pv))
                 ++ drop (length (splitText (initialText pv))) ys).
Proof.
  intros Hne Hside Hcont. unfold Render.
  destruct (decide (length pd = 0)) as [Hz|_].
  { destruct pd; [done | discriminate]. }
  unfold mbind, M_bind. rewrite renderLoop_run, printText_run.
  eexists. split; [reflexivity|]. read_world.
  rewrite Hside, Hcont, paintLines_over. split; [|done].
  apply (paintMenu_over_column pd [] xs).
Qed.

(** X13. The selection-changed function called with a row that has no
    entry panics on the index, in the loop thread: the contents are
    cleared and show "Loading...", and no goroutine is started. *)
Theorem selection_out_of_range_panics (pd : list PreviewData) (r c : nat)
    (w : World) :
  length pd <= r ->
  exists w',
    selectionChanged splitText pad pd r c w = Panicked IndexOutOfRange w'
    /\ contents w' = column (map (textCell pad) (splitText "Loading..."))
    /\ goroutines w' = goroutines w
    /\ nextId w' = nextId w
    /\ countEvents isGo (trace w') = countEvents isGo (trace w).
Proof.
  intros Hr. apply lookup_ge_None in Hr.
  unfold selectionChanged, mbind, M_bind, contentsClear, modify.
  rewrite printText_run, Hr. eexists. split; [reflexivity|]. read_world.
  unfold Clear. rewrite paintLines_empty. repeat split.
  rewrite !countEvents_app. simpl.
  rewrite (printEvents_count pad isGo); [lia|done].
Qed.

End More.

(** Render of the sample entries, then two selections and a quit. *)
Lemma loop_keeps_sidebar_and_handler_witness :
  Sample.entries <> []
  /\ selectionChangedFunc
       (worldOf (Sample.run Sample.entries
                   [SelectRow 0; RunGoroutine 0; SelectRow 2; DrawUpdate;
                    KeyPress (KeyRune "q")]))
     = Some Sample.entries.
Proof.
  split; [discriminate|].
  apply (loop_keeps_sidebar_and_handler Sample.splitText Sample.pad
           (NewPreview []).1 Sample.entries []
           [SelectRow 0; RunGoroutine 0; SelectRow 2; DrawUpdate;
            KeyPress (KeyRune "q")]).
  discriminate.
Defined.

(** The call made for the entry "About". *)
Lemma contents_called_with_own_key_witness :
  (FetchTask 0, Produce "K3")
    ∈ trace (worldOf (Render Sample.splitText Sample.pad (NewPreview []).1
                        (eventLoop Sample.splitText Sample.pad
                           [SelectRow 2; RunGoroutine 0])
                        Sample.entries (NewPreview []).2))
  /\ exists d, d ∈ Sample.entries /\ Key d = "K3" /\ Contents d <> None.
Proof.
  assert ((FetchTask 0, Produce "K3")
            ∈ trace (worldOf (Render Sample.splitText Sample.pad (NewPreview []).1
                                (eventLoop Sample.splitText Sample.pad
                                   [SelectRow 2; RunGoroutine 0])
                                Sample.entries (NewPreview []).2)))
    as Hin.
  { apply list_elem_of_In. vm_compute. do 9 right. left. reflexivity. }
  split; [exact Hin|].
  exact (contents_called_with_own_key Sample.splitText Sample.pad
           (NewPreview []).1 Sample.entries [] [SelectRow 2; RunGoroutine 0]
           (FetchTask 0) "K3" Hin).
Defined.


(** The entry "No rows" next to the entry "About". *)
Lemma empty_table_panics_witness :
  [Sample.about; Sample.noRows] !! 1 = Some Sample.noRows
  /\ Contents Sample.noRows = Some (fun _ => VTableData [])
  /\ exists w',
       Sample.run [Sample.about; Sample.noRows]
         [SelectRow 1; RunGoroutine 0; DrawUpdate; KeyPress (KeyRune "q")]
       = Panicked IndexOutOfRange w'
       /\ contents w' = [].
Proof.
  split; [reflexivity|]. split; [reflexivity|].
  apply (empty_table_panics Sample.splitText Sample.pad (NewPreview []).1
           [Sample.about; Sample.noRows] [] 1 Sample.noRows
           (fun _ => VTableData []) [KeyPress (KeyRune "q")]); reflexivity.
Defined.

(** The key [j], which tview uses to move the selection, given to the
    capture of the sidebar once Render has filled it with the sample
    entries. *)
Lemma other_keys_change_nothing_witness :
  KeyRune "j" <> KeyRune "q"
  /\ KeyRune "j" <> KeyRune "w"
  /\ KeyRune "j" <> KeyEsc
  /\ selectionChangedFunc (worldOf (Sample.run Sample.entries []))
     = Some Sample.entries
  /\ inputCapture Sidebar ContentsPane (KeyRune "j")
       (worldOf (Sample.run Sample.entries []))
     = Done (KeyRune "j") (worldOf (Sample.run Sample.entries [])).
Proof.
  split; [discriminate|]. split; [discriminate|]. split; [discriminate|].
  split; [reflexivity|].
  apply (other_keys_change_nothing (KeyRune "j") Sidebar ContentsPane
           (worldOf (Sample.run Sample.entries []))); discriminate.
Defined.

(** A text of one line printed over a column of two cells. *)
Lemma text_result_paints_over_witness :
  Contents Sample.help = Some (fun _ => VString "Press q to quit")
  /\ contents (withContents (fun _ => column [zeroCell; zeroCell]) Sample.fresh)
     = column [zeroCell; zeroCell]
  /\ exists w',
       renderContents Sample.splitText Sample.pad 0 Sample.help
         (withContents (fun _ => column [zeroCell; zeroCell]) Sample.fresh)
       = Done tt w'
       /\ map (map Text) (contents w') = [[" Press q to quit"]; [""]].
Proof.
  split; [reflexivity|]. split; [reflexivity|].
  destruct (text_result_paints_over Sample.splitText Sample.pad Sample.help
              (fun _ => VString "Press q to quit") "Press q to quit" 0
              [zeroCell; zeroCell]
              (withContents (fun _ => column [zeroCell; zeroCell]) Sample.fresh))
    as (w' & Hrun & Hcont & _); [reflexivity | reflexivity | reflexivity |].
  exists w'. split; [exact Hrun|]. rewrite Hcont. reflexivity.
Defined.


(** A preview made with a footer and an initial text. *)
Lemma Render_prints_initial_text_witness :
  Sample.entries <> []
  /\ exists w1,
       Render Sample.splitText Sample.pad
         (NewPreview ([WithPreviewFooterText "q: quit"] ++ [WithInitialText "Pick one"])).1
         (Sample.Paint []) Sample.entries
         (NewPreview ([WithPreviewFooterText "q: quit"] ++ [WithInitialText "Pick one"])).2
       = Sample.Paint [] w1
       /\ map (map Text) (contents w1) = [[" Pick one"]].
Proof.
  split; [discriminate|].
  destruct (Render_prints_initial_text Sample.splitText Sample.pad
              [WithPreviewFooterText "q: quit"] "Pick one" Sample.entries)
    as (w1 & Hrun & Hcont & _); [discriminate|].
  exists w1. split; [apply Hrun|]. rewrite Hcont. reflexivity.
Defined.

(** One entry rendered on tables that hold two rows each. *)
Lemma Render_keeps_rows_below_witness :
  [Sample.about] <> []
  /\ exists w1,
       Render Sample.splitText Sample.pad (NewPreview [WithInitialText "Hi"]).1
         (Sample.Paint []) [Sample.about]
         (withSidebar (fun _ => column [zeroCell; NewTableCell "old"])
            (withContents (fun _ => column [zeroCell; NewTableCell "stale"])
               Sample.fresh))
       = Sample.Paint [] w1
       /\ map (map Text) (sidebar w1) = [[" About"]; ["old"]]
       /\ map (map Text) (contents w1) = [[" Hi"]; ["stale"]].
Proof.
  split; [discriminate|].
  destruct (Render_keeps_rows_below Sample.splitText Sample.pad
              (NewPreview [WithInitialText "Hi"]).1 (Sample.Paint []) [Sample.about]
              [zeroCell; NewTableCell "old"] [zeroCell; NewTableCell "stale"]
              (withSidebar (fun _ => column [zeroCell; NewTableCell "old"])
                 (withContents (fun _ => column [zeroCell; NewTableCell "stale"])
                    Sample.fresh)))
    as (w1 & Hrun & Hside & Hcont); [discriminate | reflexivity | reflexivity |].
  exists w1. split; [exact Hrun|]. rewrite Hside, Hcont. split; reflexivity.
Defined.

(** Row 5 of five entries. *)
Lemma selection_out_of_range_panics_witness :
  length Sample.entries <= 5
  /\ exists w',
       selectionChanged Sample.splitText Sample.pad Sample.entries 5 0 Sample.fresh
       = Panicked IndexOutOfRange w'
       /\ goroutines w' = [].
Proof.
  split; [simpl; lia|].
  destruct (selection_out_of_range_panics Sample.splitText Sample.pad
              Sample.entries 5 0 Sample.fresh)
    as (w' & Hrun & _ & Hgo & _); [simpl; lia|].
  exists w'. split; [exact Hrun | exact Hgo].
Defined.

(** ** The create command *)

Section CreateCommand.

Import Create.

Variable IssueTypeEpic : string.
Variable StdinHasData : bool.
Variable ReadFile : string -> string + string.

Lemma rangeTypes_readable availableTypes : forall acc,
  Forall (readable IssueTypeEpic) availableTypes ->
  rangeTypes IssueTypeEpic availableTypes acc
  = Some (acc ++ omap (keptType IssueTypeEpic) availableTypes).
Proof.
  induction availableTypes as [|item rest IH]; intros acc Hall.
  - simpl. by rewrite app_nil_r.
  - apply Forall_cons in Hall as [(tp & -> & Hitem) Hrest].
    cbn [rangeTypes omap list_omap keptType].
    destruct Hitem as [->|(-> & name & -> & Hname)].
    + by apply IH.
    + destruct Hname as [->|(id & ->)].
      * destruct (decide (IssueTypeEpic = IssueTypeEpic)) as [_|]; [|done].
        destruct (mapIndex tp "id"); by apply IH.
      * destruct (decide (name = IssueTypeEpic)) as [_|_]; [by apply IH|].
        rewrite (IH _ Hrest), <- app_assoc. done.
Qed.

(** X14. On a configuration that is a list of readable entries,
    setIssueTypes returns no error and sets the issue types to the
    entries that are neither a subtask nor the epic, in the order of the
    configuration, with their id and name; the parameters are not
    touched. An entry that is skipped needs no name or no id. *)
Theorem setIssueTypes_keeps_standard_types (availableTypes : list Dyn)
    (cc : createCmd) :
  Forall (readable IssueTypeEpic) availableTypes ->
  setIssueTypes IssueTypeEpic (DSlice availableTypes) cc
  = Returns (None,
             {| issueTypes := omap (keptType IssueTypeEpic) availableTypes;
                params := params cc |}).
Proof.
  intros Hall. unfold setIssueTypes.
  by rewrite (rangeTypes_readable availableTypes [] Hall).
Qed.

Lemma rangeTypes_step item rest acc :
  rangeTypes IssueTypeEpic (item :: rest) acc = None
  \/ exists acc', rangeTypes IssueTypeEpic (item :: rest) acc
                  = rangeTypes IssueTypeEpic rest acc'.
Proof.
  destruct item as [| | | |tp|]; try (by left).
  cbn [rangeTypes].
  destruct (mapIndex tp "subtask") as [|[]| | | |]; try (by left).
  - right. by eexists.
  - destruct (mapIndex tp "name") as [| |name| | |]; try (by left).
    destruct (decide (name = IssueTypeEpic)); [right; by eexists|].
    destruct (mapIndex tp "id"); try (by left). right. by eexists.
Qed.

Lemma rangeTypes_unreadable availableTypes : forall acc,
  Exists (fun item => ~ readable IssueTypeEpic item) availableTypes ->
  rangeTypes IssueTypeEpic availableTypes acc = None.
Proof.
  induction availableTypes as [|item rest IH]; intros acc Hex.
  - by apply Exists_nil in Hex.
  - apply Exists_cons in Hex as [Hbad|Hex].
    + destruct item as [| | | |tp|]; try done.
      cbn [rangeTypes].
      destruct (mapIndex tp "subtask") as [|[]| | | |] eqn:Hst; try done.
      * exfalso. apply Hbad. exists tp. split; [done|]. by left.
      * destruct (mapIndex tp "name") as [| |name| | |] eqn:Hname; try done.
        destruct (decide (name = IssueTypeEpic)) as [Hepic|Hne].
        -- exfalso. apply Hbad. exists tp. split; [done|]. right.
           split; [done|]. exists name. split; [done|]. by left.
        -- destruct (mapIndex tp "id") as [| |id| | |] eqn:Hid; try done.
           exfalso. apply Hbad. exists tp. split; [done|]. right.
           split; [done|]. exists name. split; [done|]. right. by exists id.
    + destruct (rangeTypes_step item rest acc) as [->|(acc' & ->)]; [done|].
      by apply IH.
Qed.

(** X15. A single entry of the configuration list that cannot be read (it
    is no map, its "subtask" is no bool, or a name or an id that is
    needed is no string) makes setIssueTypes panic, wherever it stands
    in the list: no error is returned and no issue type is set. *)
Theorem setIssueTypes_unreadable_entry_panics (availableTypes : list Dyn)
    (cc : createCmd) :
  Exists (fun item => ~ readable IssueTypeEpic item) availableTypes ->
  setIssueTypes IssueTypeEpic (DSlice availableTypes) cc = Panics.
Proof.
  intros Hex. unfold setIssueTypes.
  by rewrite (rangeTypes_unreadable availableTypes [] Hex).
Qed.

Lemma rangeTypes_standard availableTypes : forall acc its,
  Forall (fun t => Subtask t = false /\ Name t <> IssueTypeEpic) acc ->
  rangeTypes IssueTypeEpic availableTypes acc = Some its ->
  Forall (fun t => Subtask t = false /\ Name t <> IssueTypeEpic) its.
Proof.
  induction availableTypes as [|item rest IH]; intros acc its Hacc.
  - simpl. by intros [= <-].
  - destruct item as [| | | |tp|]; try done.
    cbn [rangeTypes].
    destruct (mapIndex tp "subtask") as [|[]| | | |]; try done.
    + by apply IH.
    + destruct (mapIndex tp "name") as [| |name| | |]; try done.
      destruct (decide (name = IssueTypeEpic)) as [_|Hne]; [by apply IH|].
      destruct (mapIndex tp "id") as [| |id| | |]; try done.
      apply IH. apply Forall_app. split; [done|]. by repeat constructor.
Qed.

(** X16. Whatever the configuration holds, when setIssueTypes returns it
    has not touched the parameters; with an error it has not touched the
    issue types either, and without one no issue type it has set is a
    subtask or the epic. The error is returned exactly when the
    configuration is not a list. *)
Theorem setIssueTypes_never_keeps_subtask_or_epic (config : Dyn)
    (cc cc' : createCmd) (err : option string) :
  setIssueTypes IssueTypeEpic config cc = Returns (err, cc') ->
  params cc' = params cc
  /\ match err with
     | Some msg =>
         msg = "invalid issue types in config"
         /\ issueTypes cc' = issueTypes cc
         /\ forall items, config <> DSlice items
     | None =>
         (exists items, config = DSlice items)
         /\ Forall (fun t => Subtask t = false /\ Name t <> IssueTypeEpic)
              (issueTypes cc')
     end.
Proof.
  unfold setIssueTypes.
  destruct config as [| | |items| |]; try (by intros [= <- <-]).
  destruct (rangeTypes IssueTypeEpic items []) as [its|] eqn:Hrange; [|done].
  intros [= <- <-]. split; [done|]. split; [by exists items|].
  simpl. by apply (rangeTypes_standard items [] its).
Qed.

(** X17. The questions getQuestions returns are those for what the
    parameters leave empty, in the order issue type, summary, body; the
    body is never asked for when noInput is set. *)
Theorem getQuestions_asks_for_missing (cc cc' : createCmd) (qs : list Question) :
  getQuestions StdinHasData ReadFile cc = Returns (qs, cc') ->
  map qName qs
  = (if decide (issueType (params cc) = "") then ["issueType"] else [])
    ++ (if decide (summary (params cc) = "") then ["summary"] else [])
    ++ (if noInput (params cc) then []
        else if decide (body (params cc) = "") then ["body"] else []).
Proof.
  unfold getQuestions.
  destruct (if bool_decide (template (params cc) <> "") || StdinHasData
            then ReadFile (template (params cc)) else inl "")
    as [defaultBody|err]; [|done].
  destruct (noInput (params cc)).
  - intros [= <- _].
    destruct (decide (issueType (params cc) = ""));
      destruct (decide (summary (params cc) = "")); reflexivity.
  - destruct (decide (body (params cc) = "")); intros [= <- _];
      destruct (decide (issueType (params cc) = ""));
      destruct (decide (summary (params cc) = "")); reflexivity.
Qed.

(** X18. getQuestions changes the parameters in one case only: with
    noInput set and an empty body, the body becomes what ReadFile gave
    for the template (read when a template is named or the standard
    input holds data), and the empty string when nothing was read. The
    issue types are never changed. *)
Theorem getQuestions_sets_body_only_without_input (cc cc' : createCmd)
    (qs : list Question) :
  getQuestions StdinHasData ReadFile cc = Returns (qs, cc') ->
  issueTypes cc' = issueTypes cc
  /\ (noInput (params cc) = false -> cc' = cc)
  /\ (body (params cc) <> "" -> cc' = cc)
  /\ (noInput (params cc) = true ->
      body (params cc) = "" ->
      exists text,
        cc' = withBody text cc
        /\ (template (params cc) <> "" \/ StdinHasData = true ->
            ReadFile (template (params cc)) = inl text)
        /\ (template (params cc) = "" -> StdinHasData = false -> text = "")).
Proof.
  unfold getQuestions.
  destruct (bool_decide (template (params cc) <> "") || StdinHasData) eqn:Hread.
  - destruct (ReadFile (template (params cc))) as [defaultBody|err] eqn:Hfile;
      [|done].
    destruct (noInput (params cc)).
    + destruct (decide (body (params cc) = "")) as [Hb|Hb]; intros [= _ <-].
      * split; [done|]. split; [done|]. split; [done|].
        intros _ _. exists defaultBody. split; [done|]. split; [done|].
        intros Ht Hs. rewrite Hs, orb_false_r in Hread.
        apply bool_decide_eq_true in Hread. done.
      * split; [done|]. split; [done|]. split; [done|]. done.
    + destruct (decide (body (params cc) = "")); intros [= _ <-];
        (split; [done|]; split; [done|]; split; [done|]; done).
  - apply orb_false_iff in Hread as [Ht Hs].
    apply bool_decide_eq_false in Ht.
    destruct (noInput (params cc)).
    + destruct (decide (body (params cc) = "")) as [Hb|Hb]; intros [= _ <-].
      * split; [done|]. split; [done|]. split; [done|].
        intros _ _. exists "". split; [done|]. split; [|done].
        intros [H|H]; [done|congruence].
      * split; [done|]. split; [done|]. split; [done|]. done.
    + destruct (decide (body (params cc) = "")); intros [= _ <-];
        (split; [done|]; split; [done|]; split; [done|]; done).
Qed.

(** X19. When no issue type is given, the first question is the select
    whose options are the names of the issue types setIssueTypes took
    from the configuration, in that order: the epic is never among
    them. *)
Theorem issue_type_options_come_from_config (config : Dyn)
    (cc cc1 cc2 : createCmd) (qs : list Question) :
  setIssueTypes IssueTypeEpic config cc = Returns (None, cc1) ->
  getQuestions StdinHasData ReadFile cc1 = Returns (qs, cc2) ->
  issueType (params cc) = "" ->
  exists rest,
    qs = {| qName := "issueType";
            qPrompt := Select "Issue type:" (map Name (issueTypes cc1));
            qRequired := true |} :: rest
    /\ IssueTypeEpic ∉ map Name (issueTypes cc1).
Proof.
  intros Hset Hget Hempty.
  assert (params cc1 = params cc
          /\ Forall (fun t => Subtask t = false /\ Name t <> IssueTypeEpic)
               (issueTypes cc1)) as (Hparams & Hstd).
  { unfold setIssueTypes in Hset.
    destruct config as [| | |items| |]; try discriminate.
    destruct (rangeTypes IssueTypeEpic items []) as [its|] eqn:Hrange; [|done].
    injection Hset as <-. split; [done|].
    simpl. by apply (rangeTypes_standard items [] its). }
  unfold getQuestions in Hget. rewrite Hparams in Hget.
  destruct (if bool_decide (template (params cc) <> "") || StdinHasData
            then ReadFile (template (params cc)) else inl "")
    as [defaultBody|err]; [|done].
  destruct (decide (issueType (params cc) = "")) as [_|]; [|done].
  assert (IssueTypeEpic ∉ map Name (issueTypes cc1)) as Hnot.
  { intros Hin. apply list_elem_of_In, in_map_iff in Hin as (t & Hname & Hin).
    rewrite Forall_forall in Hstd. apply list_elem_of_In in Hin.
    by destruct (Hstd t Hin) as [_ Hne]. }
  destruct (noInput (params cc));
    [|destruct (decide (body (params cc) = ""))];
    destruct (decide (summary (params cc) = ""));
    injection Hget as <- _; eexists; (split; [reflexivity|exact Hnot]).
Qed.

(** X20. In the non-interactive mode (data on the standard input, or the
    template "-") create asks nothing: its guard ends the run when
    summary or issue type is missing, and otherwise sets noInput, after
    which getQuestions returns no question and leaves noInput set. *)
Theorem non_interactive_asks_nothing (cc : createCmd) :
  isNonInteractive StdinHasData cc = true ->
  (isMandatoryParamsMissing cc = true ->
   nonInteractiveGuard StdinHasData cc = Exits ParamsMissing)
  /\ forall cc1 cc2 qs,
       nonInteractiveGuard StdinHasData cc = Returns cc1 ->
       getQuestions StdinHasData ReadFile cc1 = Returns (qs, cc2) ->
       qs = [] /\ noInput (params cc2) = true.
Proof.
  intros Hmode. unfold nonInteractiveGuard. rewrite Hmode.
  assert (isMandatoryParamsMissing (withNoInput cc) = isMandatoryParamsMissing cc)
    as -> by reflexivity.
  split; [by intros ->|].
  intros cc1 cc2 qs.
  destruct (isMandatoryParamsMissing cc) eqn:Hgiven; [done|].
  intros [= <-] Hget.
  unfold isMandatoryParamsMissing in Hgiven.
  apply orb_false_iff in Hgiven as [Hs Ht].
  apply bool_decide_eq_false in Hs. apply bool_decide_eq_false in Ht.
  unfold getQuestions in Hget. simpl in Hget.
  destruct (if bool_decide (template (params cc) <> "") || StdinHasData
            then ReadFile (template (params cc)) else inl "")
    as [defaultBody|err]; [|done].
  destruct (decide (issueType (params cc) = "")); [done|].
  destruct (decide (summary (params cc) = "")); [done|].
  destruct (decide (body (params cc) = "")); by injection Hget as <- <-.
Qed.

End CreateCommand.

(** The sample configuration: a bug, the epic, a subtask and a story. *)
Lemma setIssueTypes_keeps_standard_types_witness :
  Forall (Create.readable CreateSample.epic)
    [CreateSample.bug; CreateSample.epicType; CreateSample.subtask; CreateSample.story]
  /\ Create.setIssueTypes CreateSample.epic CreateSample.config
       (CreateSample.command CreateSample.noFlags)
     = Create.Returns
         (None,
          {| Create.issueTypes :=
               [ {| Create.ID := "1"; Create.Name := "Bug"; Create.Subtask := false |};
                 {| Create.ID := "3"; Create.Name := "Story"; Create.Subtask := false |} ];
             Create.params := CreateSample.noFlags |}).
Proof.
  assert (Forall (Create.readable CreateSample.epic)
            [CreateSample.bug; CreateSample.epicType; CreateSample.subtask;
             CreateSample.story]) as Hall.
  { repeat constructor.
    - eexists. split; [reflexivity|]. right. split; [reflexivity|].
      eexists. split; [reflexivity|]. right. eexists. reflexivity.
    - eexists. split; [reflexivity|]. right. split; [reflexivity|].
      eexists. split; [reflexivity|]. left. reflexivity.
    - eexists. split; [reflexivity|]. left. reflexivity.
    - eexists. split; [reflexivity|]. right. split; [reflexivity|].
      eexists. split; [reflexivity|]. right. eexists. reflexivity. }
  split; [exact Hall|].
  exact (setIssueTypes_keeps_standard_types CreateSample.epic _
           (CreateSample.command CreateSample.noFlags) Hall).
Defined.

(** The same list with an entry whose id is a bool. *)
Lemma setIssueTypes_unreadable_entry_panics_witness :
  Exists (fun item => ~ Create.readable CreateSample.epic item)
    [CreateSample.bug; CreateSample.broken; CreateSample.story]
  /\ Create.setIssueTypes CreateSample.epic
       (Create.DSlice [CreateSample.bug; CreateSample.broken; CreateSample.story])
       (CreateSample.command CreateSample.noFlags)
     = Create.Panics.
Proof.
  assert (Exists (fun item => ~ Create.readable CreateSample.epic item)
            [CreateSample.bug; CreateSample.broken; CreateSample.story]) as Hex.
  { apply Exists_cons_tl, Exists_cons_hd.
    intros (tp & Htp & Hitem). injection Htp as <-.
    destruct Hitem as [Hst|(_ & name & Hname & [Hepic|(id & Hid)])].
    - discriminate Hst.
    - injection Hname as <-. discriminate Hepic.
    - discriminate Hid. }
  split; [exact Hex|].
  exact (setIssueTypes_unreadable_entry_panics CreateSample.epic _
           (CreateSample.command CreateSample.noFlags) Hex).
Defined.

(** A configuration without the key: viper returns nil. *)
Lemma setIssueTypes_never_keeps_subtask_or_epic_witness :
  Create.setIssueTypes CreateSample.epic Create.DNil
    (CreateSample.command CreateSample.scripted)
  = Create.Returns (Some "invalid issue types in config",
                    CreateSample.command CreateSample.scripted)
  /\ Create.params (CreateSample.command CreateSample.scripted)
     = CreateSample.scripted.
Proof.
  split; [reflexivity|].
  apply (setIssueTypes_never_keeps_subtask_or_epic CreateSample.epic Create.DNil
           (CreateSample.command CreateSample.scripted)
           (CreateSample.command CreateSample.scripted)
           (Some "invalid issue types in config")).
  reflexivity.
Defined.

(** No flag given, no data on the standard input: three questions. *)
Lemma getQuestions_asks_for_missing_witness :
  exists qs cc',
    Create.getQuestions false CreateSample.ReadFile
      (CreateSample.command CreateSample.noFlags) = Create.Returns (qs, cc')
    /\ map Create.qName qs = ["issueType"; "summary"; "body"].
Proof.
  eexists _, _. split; [reflexivity|].
  apply (getQuestions_asks_for_missing false CreateSample.ReadFile
           (CreateSample.command CreateSample.noFlags)
           (CreateSample.command CreateSample.noFlags)).
  reflexivity.
Defined.

(** Type and summary given with a template and --no-input: the body is
    the template. *)
Lemma getQuestions_sets_body_only_without_input_witness :
  exists qs cc',
    Create.getQuestions false CreateSample.ReadFile
      (CreateSample.command CreateSample.scripted) = Create.Returns (qs, cc')
    /\ Create.body (Create.params cc') = "template text"
    /\ Create.issueTypes cc' = [].
Proof.
  eexists _, _. split; [reflexivity|]. split; [reflexivity|].
  apply (getQuestions_sets_body_only_without_input false CreateSample.ReadFile
           (CreateSample.command CreateSample.scripted) _ []).
  reflexivity.
Defined.

(** The sample configuration, then the questions without any flag. *)
Lemma issue_type_options_come_from_config_witness :
  exists cc1 qs cc2 rest,
    Create.setIssueTypes CreateSample.epic CreateSample.config
      (CreateSample.command CreateSample.noFlags) = Create.Returns (None, cc1)
    /\ Create.getQuestions false CreateSample.ReadFile cc1 = Create.Returns (qs, cc2)
    /\ Create.issueType (Create.params (CreateSample.command CreateSample.noFlags)) = ""
    /\ qs = {| Create.qName := "issueType";
               Create.qPrompt := Create.Select "Issue type:" ["Bug"; "Story"];
               Create.qRequired := true |} :: rest.
Proof.
  destruct (issue_type_options_come_from_config CreateSample.epic false
              CreateSample.ReadFile CreateSample.config
              (CreateSample.command CreateSample.noFlags)
              _ _ _ eq_refl eq_refl eq_refl) as (rest & Hqs & _).
  eexists _, _, _, rest.
  split; [reflexivity|]. split; [reflexivity|]. split; [reflexivity|].
  exact Hqs.
Defined.

(** [-tBug -s"New Bug"] with a body piped in. *)
Lemma non_interactive_asks_nothing_witness :
  Create.isNonInteractive true (CreateSample.command CreateSample.piped) = true
  /\ exists cc1 cc2,
       Create.nonInteractiveGuard true (CreateSample.command CreateSample.piped)
       = Create.Returns cc1
       /\ Create.getQuestions true CreateSample.ReadFile cc1 = Create.Returns ([], cc2)
       /\ Create.body (Create.params cc2) = "from stdin"
       /\ Create.noInput (Create.params cc2) = true.
Proof.
  split; [reflexivity|].
  destruct (non_interactive_asks_nothing true CreateSample.ReadFile
              (CreateSample.command CreateSample.piped) eq_refl) as [_ Hask].
  eexists _, _. split; [reflexivity|]. split; [reflexivity|].
  split; [reflexivity|].
  apply (Hask _ _ [] eq_refl eq_refl).
Defined.
